(** * GraphQL client examples (src/main.py): a shallow embedding

    The Python clients of [src/main.py] are embedded as Rocq functions:

    - JSON values (what [response.json()] and [json.loads] produce, and what
      [json.dumps] consumes) are an inductive type; Python's [None] is
      [JNull].  JSON numbers are modelled by the integers.
    - Python mappings are association lists in insertion order.
    - Exceptions are an error type; every operation that Python can raise
      from returns an [outcome].
    - The HTTP endpoint, the class-level [lru_cache] and standard output are
      an explicit [world] threaded through the calls by a small state and
      exception monad.
    - The websocket of the subscription client is a queue of inbound frames
      with a mark that says how the queue ends, the number of messages the
      client can still send before the close arrives, and a log of sent
      frames. *)

From Stdlib Require Import List String Ascii ZArith Bool Lia Arith.
From Stdlib Require Import Permutation Sorted DecimalString OrderedTypeEx.
Import ListNotations.

Set Warnings "-register-all".
Local Open Scope list_scope.
Local Open Scope string_scope.

(** ** JSON values and the Python operations applied to them *)

Inductive json : Type :=
| JNull
| JBool (b : bool)
| JInt (n : Z)
| JStr (s : string)
| JList (xs : list json)
| JDict (items : list (string * json)).

(** The exceptions that the modelled code raises or lets through. *)
Inductive exn : Type :=
| RequestException (cause : string)
    (* requests.exceptions.RequestException and its subclasses
       (ConnectionError, HTTPError from raise_for_status, ...) *)
| GraphQLError (errors : json)
    (* class GraphQLError(Exception): self.errors = errors *)
| KeyError (key : string)
| TypeError
| AttributeError
| JSONDecodeError
| ConnectionClosed
| ConnectFailed
| PlainException (msg : string)
    (* raise Exception("...") *)
| UnicodeDecodeError
| RecursionError.

Inductive outcome (A : Type) : Type :=
| Returns (a : A)
| Raises (e : exn).
Arguments Returns {A} a.
Arguments Raises {A} e.

(** [bool(x)] for a JSON value. *)
Definition truthy (j : json) : bool :=
  match j with
  | JNull => false
  | JBool b => b
  | JInt n => negb (n =? 0)%Z
  | JStr s => negb (s =? "")
  | JList xs => match xs with [] => false | _ => true end
  | JDict items => match items with [] => false | _ => true end
  end.

(** [x or {}] *)
Definition or_empty_dict (j : json) : json :=
  if truthy j then j else JDict [].

(** Lookup in a mapping. *)
Fixpoint dict_lookup {V : Type} (k : string) (items : list (string * V)) : option V :=
  match items with
  | [] => None
  | (k', v) :: rest => if k' =? k then Some v else dict_lookup k rest
  end.

(** [d[k] = v] on a Python dict: an existing key keeps its position. *)
Fixpoint dict_set {V : Type} (k : string) (v : V) (items : list (string * V))
  : list (string * V) :=
  match items with
  | [] => [(k, v)]
  | (k', v') :: rest =>
      if k' =? k then (k', v) :: rest else (k', v') :: dict_set k v rest
  end.

(** [x.get(k, default)]: only mappings have [get]. *)
Definition py_get (x : json) (k : string) (default : json) : outcome json :=
  match x with
  | JDict items =>
      match dict_lookup k items with
      | Some v => Returns v
      | None => Returns default
      end
  | _ => Raises AttributeError
  end.

(** [x[k]] with a string [k]. *)
Definition py_getitem (x : json) (k : string) : outcome json :=
  match x with
  | JDict items =>
      match dict_lookup k items with
      | Some v => Returns v
      | None => Raises (KeyError k)
      end
  | _ => Raises TypeError
  end.

(** Is [needle] a prefix of [s]; does [needle] occur in [s]. *)
Fixpoint starts_with (needle s : string) : bool :=
  match needle, s with
  | EmptyString, _ => true
  | String _ _, EmptyString => false
  | String a n', String b s' => (Ascii.eqb a b) && starts_with n' s'
  end.

Fixpoint occurs_in (needle s : string) : bool :=
  starts_with needle s ||
  match s with
  | EmptyString => false
  | String _ s' => occurs_in needle s'
  end.

(** [k in x] with a string [k]: key membership for a mapping, element
    membership for a list, substring test for a string, [TypeError] for the
    values that are not iterable. *)
Definition py_contains (k : string) (x : json) : outcome bool :=
  match x with
  | JDict items =>
      Returns (match dict_lookup k items with Some _ => true | None => false end)
  | JList xs =>
      Returns (existsb (fun e => match e with JStr s => s =? k | _ => false end) xs)
  | JStr s => Returns (occurs_in k s)
  | _ => Raises TypeError
  end.

Fixpoint chars (s : string) : list json :=
  match s with
  | EmptyString => []
  | String a s' => JStr (String a EmptyString) :: chars s'
  end.

(** [for e in x]: the elements that the loop visits. *)
Definition py_iter (x : json) : outcome (list json) :=
  match x with
  | JList xs => Returns xs
  | JDict items => Returns (map (fun kv => JStr (fst kv)) items)
  | JStr s => Returns (chars s)
  | _ => Raises TypeError
  end.

(** ** [json.dumps]

    The two scalar encoders ([encode_basestring_ascii] for strings and
    keys, [int.__repr__]) and [hashlib.md5(..).hexdigest()] are library
    functions; the string encoder and the digest are parameters of the
    model, the integer encoder is decimal notation. *)

Definition int_repr (n : Z) : string := NilEmpty.string_of_int (Z.to_int n).

Fixpoint join (sep : string) (parts : list string) : string :=
  match parts with
  | [] => ""
  | [p] => p
  | p :: rest => p ++ sep ++ join sep rest
  end.

(** [sorted(dct.items())]: the keys of a mapping are distinct, so the
    tuples are ordered by their keys (code point order). *)
Fixpoint insert_item {V : Type} (kv : string * V) (sorted : list (string * V))
  : list (string * V) :=
  match sorted with
  | [] => [kv]
  | kv' :: rest =>
      if (fst kv <=? fst kv')%string then kv :: kv' :: rest
      else kv' :: insert_item kv rest
  end.

Fixpoint sort_items {V : Type} (items : list (string * V)) : list (string * V) :=
  match items with
  | [] => []
  | kv :: rest => insert_item kv (sort_items rest)
  end.

(** The order of two items by their keys. *)
Definition key_le {V : Type} (a b : string * V) : Prop :=
  (fst a <=? fst b)%string = true.

Section Dumps.
Variable encode_basestring : string -> string.

(** [json.dumps(j, sort_keys=sort_keys)] with the default separators.
    The values of a mapping are rendered before the items are put in
    key order; the order looks at keys only, so this is the text that
    rendering the sorted items gives. *)
Fixpoint dumps (sort_keys : bool) (j : json) : string :=
  match j with
  | JNull => "null"
  | JBool true => "true"
  | JBool false => "false"
  | JInt n => int_repr n
  | JStr s => encode_basestring s
  | JList xs => "[" ++ join ", " (map (dumps sort_keys) xs) ++ "]"
  | JDict items =>
      let rendered := map (fun kv => (fst kv, dumps sort_keys (snd kv))) items in
      let ordered := if sort_keys then sort_items rendered else rendered in
      "{" ++ join ", " (map (fun kv => encode_basestring (fst kv) ++ ": " ++ snd kv) ordered)
          ++ "}"
  end.
End Dumps.

(** Two JSON values that differ at most in the insertion order of the keys
    of their mappings (Python's [==] on values of one scalar type each). *)
Fixpoint same_value (a b : json) {struct a} : bool :=
  match a, b with
  | JNull, JNull => true
  | JBool x, JBool y => Bool.eqb x y
  | JInt x, JInt y => (x =? y)%Z
  | JStr x, JStr y => (x =? y)%string
  | JList xs, JList ys =>
      (fix go (xs ys : list json) {struct xs} : bool :=
         match xs, ys with
         | [], [] => true
         | x :: xs', y :: ys' => same_value x y && go xs' ys'
         | _, _ => false
         end) xs ys
  | JDict d1, JDict d2 =>
      (List.length d1 =? List.length d2)%nat &&
      (fix all (d : list (string * json)) : bool :=
         match d with
         | [] => true
         | kv :: d' =>
             match dict_lookup (fst kv) d2 with
             | Some v' => same_value (snd kv) v'
             | None => false
             end && all d'
         end) d1
  | _, _ => false
  end.

(** A Python mapping holds each key once, at every depth. *)
Fixpoint distinct_keysb (ks : list string) : bool :=
  match ks with
  | [] => true
  | k :: rest => negb (existsb (String.eqb k) rest) && distinct_keysb rest
  end.

Fixpoint well_formed (j : json) : bool :=
  match j with
  | JList xs => forallb well_formed xs
  | JDict items =>
      distinct_keysb (map fst items) &&
      forallb (fun kv => well_formed (snd kv)) items
  | _ => true
  end.

(** ** The world the clients run in *)

(** What [requests.post] is called with. *)
Record request : Type := mkRequest {
  req_url : string;
  req_json : json;
  req_headers : list (string * string)
}.

(** A key of the memo table of [_execute_cached]: the arguments
    [(self, query, variables_json)]; an instance is hashed by identity. *)
Definition lru_key : Type := (nat * string * string)%type.

Record world : Type := mkWorld {
  posted : list request;              (* HTTP requests made, newest first *)
  stdout : list string;               (* lines printed, newest first *)
  lru : list (lru_key * string)       (* memo table, most recently used first *)
}.

Definition fresh_world : world := mkWorld [] [] [].

Definition M (A : Type) : Type := world -> outcome A * world.

Definition ret {A : Type} (a : A) : M A := fun w => (Returns a, w).
Definition raise {A : Type} (e : exn) : M A := fun w => (Raises e, w).
Definition bind {A B : Type} (c : M A) (k : A -> M B) : M B :=
  fun w => match c w with
           | (Returns a, w') => k a w'
           | (Raises e, w') => (Raises e, w')
           end.

Definition obind {A B : Type} (c : outcome A) (k : A -> outcome B) : outcome B :=
  match c with
  | Returns a => k a
  | Raises e => Raises e
  end.

Definition lift {A : Type} (c : outcome A) : M A := fun w => (c, w).

Notation "x <- c ;; k" := (bind c (fun x => k))
  (at level 61, c at next level, right associativity).
Notation "x <~ c ;; k" := (obind c (fun x => k))
  (at level 61, c at next level, right associativity).

Definition print (line : string) : M unit :=
  fun w => (Returns tt, mkWorld (posted w) (line :: stdout w) (lru w)).

(** ** SimpleGraphQLClient *)

Record SimpleGraphQLClient : Type := mkSimple {
  endpoint : string;
  headers : list (string * string)
}.

(** [__init__]: [self.headers = headers or {}] *)
Definition SimpleGraphQLClient_init (endpoint : string)
    (headers : option (list (string * string))) : SimpleGraphQLClient :=
  mkSimple endpoint (match headers with Some h => h | None => [] end).

Section Endpoint.
(** The endpoint: what [requests.post(...)], [raise_for_status()] and
    [response.json()] together give for a request, given the requests
    made before it (newest first). *)
Variable server : list request -> request -> outcome json.

Definition requests_post (r : request) : M json :=
  fun w => (server (posted w) r, mkWorld (r :: posted w) (stdout w) (lru w)).

(** [SimpleGraphQLClient.execute] *)
Definition execute (self : SimpleGraphQLClient) (query : string) (variables : json)
  : M json :=
  let payload := [("query", JStr query)] in
  let payload := if truthy variables
                 then dict_set "variables" variables payload
                 else payload in
  requests_post (mkRequest (endpoint self) (JDict payload) (headers self)).

(** ** TypedGraphQLClient *)

Inductive Author : Type :=
| mkAuthor (id name birth_year : json) (books : option (list Book))
with Book : Type :=
| mkBook (id title genre published_year : json) (author : option Author).

Definition book_id (b : Book) : json := let '(mkBook i _ _ _ _) := b in i.
Definition book_title (b : Book) : json := let '(mkBook _ t _ _ _) := b in t.
Definition book_genre (b : Book) : json := let '(mkBook _ _ g _ _) := b in g.
Definition book_published_year (b : Book) : json := let '(mkBook _ _ _ y _) := b in y.
Definition book_author (b : Book) : option Author := let '(mkBook _ _ _ _ a) := b in a.

Definition get_all_books_query : string :=
"
        query GetAllBooks {
            books {
                id
                title
                genre
                publishedYear
                author {
                    id
                    name
                    birthYear
                }
            }
        }
        ".

(** [author = None; if author_data: author = Author(...)] *)
Definition author_of (author_data : json) : outcome (option Author) :=
  if truthy author_data then
    i <~ py_getitem author_data "id" ;;
    n <~ py_getitem author_data "name" ;;
    y <~ py_getitem author_data "birthYear" ;;
    Returns (Some (mkAuthor i n y None))
  else Returns None.

Definition book_of (book_data : json) : outcome Book :=
  author_data <~ py_get book_data "author" JNull ;;
  author <~ author_of author_data ;;
  i <~ py_getitem book_data "id" ;;
  t <~ py_getitem book_data "title" ;;
  g <~ py_getitem book_data "genre" ;;
  y <~ py_getitem book_data "publishedYear" ;;
  Returns (mkBook i t g y author).

(** The body of [for book_data in books_data], with [books] so far. *)
Fixpoint books_loop (books_data : list json) (books : list Book)
  : outcome (list Book) :=
  match books_data with
  | [] => Returns books
  | book_data :: rest =>
      book <~ book_of book_data ;;
      books_loop rest (books ++ [book])%list
  end.

Record TypedGraphQLClient : Type := mkTyped { typed_client : SimpleGraphQLClient }.

Definition TypedGraphQLClient_init (endpoint : string) : TypedGraphQLClient :=
  mkTyped (SimpleGraphQLClient_init endpoint None).

Definition get_all_books (self : TypedGraphQLClient) : M (list Book) :=
  result <- execute (typed_client self) get_all_books_query JNull ;;
  lift (data <~ py_get result "data" (JDict []) ;;
        books_data <~ py_get data "books" (JList []) ;;
        elements <~ py_iter books_data ;;
        books_loop elements []).

(** ** RobustGraphQLClient *)

Record RobustGraphQLClient : Type := mkRobust {
  robust_client : SimpleGraphQLClient;
  max_retries : Z
}.

Definition RobustGraphQLClient_init (endpoint : string) (max_retries : option Z)
  : RobustGraphQLClient :=
  mkRobust (SimpleGraphQLClient_init endpoint None)
           (match max_retries with Some n => n | None => 3%Z end).

(** [range(n)] *)
Definition range (n : Z) : list Z := map Z.of_nat (seq 0 (Z.to_nat n)).

(** [except requests.exceptions.RequestException] *)
Definition is_request_exception (e : exn) : bool :=
  match e with RequestException _ => true | _ => false end.

(** The [try] block of [execute_with_retry]. *)
Definition attempt_once (self : RobustGraphQLClient) (query : string) (variables : json)
  : M json :=
  result <- execute (robust_client self) query variables ;;
  has_errors <- lift (py_contains "errors" result) ;;
  if (has_errors : bool) then
    errors <- lift (py_getitem result "errors") ;;
    raise (GraphQLError errors)
  else ret result.

(** The [for attempt in range(self.max_retries)] loop over the attempts
    that are left, and the statement after it. *)
Fixpoint retry_loop (self : RobustGraphQLClient) (query : string) (variables : json)
    (attempts : list Z) : M json :=
  match attempts with
  | [] => raise (PlainException "Max retries exceeded")
  | attempt :: rest =>
      fun w =>
        match attempt_once self query variables w with
        | (Returns result, w') => (Returns result, w')
        | (Raises e, w') =>
            if is_request_exception e then
              if (attempt =? max_retries self - 1)%Z then (Raises e, w')
              else
                (_ <- print ("Request failed, retrying... ("
                             ++ int_repr (attempt + 1) ++ "/"
                             ++ int_repr (max_retries self) ++ ")") ;;
                 retry_loop self query variables rest) w'
            else (Raises e, w')
        end
  end.

Definition execute_with_retry (self : RobustGraphQLClient) (query : string)
    (variables : json) : M json :=
  retry_loop self query variables (range (max_retries self)).
End Endpoint.

(** ** CachedGraphQLClient *)

(** [functools.lru_cache(maxsize=128)] as Python documents it: a table of
    at most [maxsize] results; a hit makes its entry the most recently
    used; a miss runs the function and, when it returns, stores the
    result, dropping the least recently used entry of a full table; a call
    that raises stores nothing. *)
Definition lru_maxsize : nat := 128.

Definition lru_key_eqb (a b : lru_key) : bool :=
  let '(i, q, v) := a in
  let '(i', q', v') := b in
  (i =? i')%nat && (q =? q') && (v =? v').

Fixpoint lru_find (k : lru_key) (table : list (lru_key * string)) : option string :=
  match table with
  | [] => None
  | (k', r) :: rest => if lru_key_eqb k' k then Some r else lru_find k rest
  end.

Fixpoint lru_remove (k : lru_key) (table : list (lru_key * string))
  : list (lru_key * string) :=
  match table with
  | [] => []
  | (k', r) :: rest =>
      if lru_key_eqb k' k then rest else (k', r) :: lru_remove k rest
  end.

Definition lru_store (k : lru_key) (r : string) (table : list (lru_key * string))
  : list (lru_key * string) :=
  (k, r) :: (if (lru_maxsize <=? List.length table)%nat then removelast table else table).

Definition lru_cached (k : lru_key) (body : M string) : M string :=
  fun w =>
    match lru_find k (lru w) with
    | Some r =>
        (Returns r, mkWorld (posted w) (stdout w) ((k, r) :: lru_remove k (lru w)))
    | None =>
        match body w with
        | (Returns r, w') =>
            (Returns r, mkWorld (posted w') (stdout w') (lru_store k r (lru w')))
        | (Raises e, w') => (Raises e, w')
        end
    end.

Record CachedGraphQLClient : Type := mkCached {
  cached_client : SimpleGraphQLClient;
  cache_size : Z;
  ident : nat                       (* the identity of the instance *)
}.

Definition CachedGraphQLClient_init (ident : nat) (endpoint : string)
    (cache_size : option Z) : CachedGraphQLClient :=
  mkCached (SimpleGraphQLClient_init endpoint None)
           (match cache_size with Some n => n | None => 128%Z end)
           ident.

Section Cached.
Variable server : list request -> request -> outcome json.
Variable encode_basestring : string -> string.
(** [hashlib.md5(content.encode()).hexdigest()] *)
Variable md5_hexdigest : string -> string.
(** [json.loads] *)
Variable loads : string -> outcome json.

(** [CachedGraphQLClient._cache_key] *)
Definition _cache_key (self : CachedGraphQLClient) (query : string) (variables : json)
  : string :=
  let content := query ++ dumps encode_basestring true (or_empty_dict variables) in
  md5_hexdigest content.

(** The function that [lru_cache] wraps. *)
Definition _execute_cached_body (self : CachedGraphQLClient) (query : string)
    (variables_json : string) : M string :=
  variables <- lift (if variables_json =? "" then Returns JNull
                     else loads variables_json) ;;
  result <- execute server (cached_client self) query variables ;;
  ret (dumps encode_basestring false result).

(** [CachedGraphQLClient._execute_cached] *)
Definition _execute_cached (self : CachedGraphQLClient) (query : string)
    (variables_json : string) : M string :=
  lru_cached (ident self, query, variables_json)
             (_execute_cached_body self query variables_json).

(** [CachedGraphQLClient.execute] *)
Definition cached_execute (self : CachedGraphQLClient) (query : string)
    (variables : json) (use_cache : bool) : M json :=
  if negb use_cache then execute server (cached_client self) query variables
  else
    let variables_json := dumps encode_basestring true (or_empty_dict variables) in
    result_json <- _execute_cached self query variables_json ;;
    lift (loads result_json).
End Cached.

(** ** GraphQLSubscriptionClient *)

(** A frame from the server, text or binary, given by what [json.loads]
    makes of its content: the decoded value, or the exception that
    [json.loads] raises on it ([JSONDecodeError] for a text that is not
    JSON, [UnicodeDecodeError] for bytes that are no text, [RecursionError]
    for a text nested too deep). *)
Inductive frame : Type :=
| Text (decoded : json)
| Garbled (raised : exn).

(** How the queue of inbound frames ends: the server keeps the connection
    open and sends nothing more, or it closes the connection, with the
    normal close code or with another. *)
Inductive queue_end : Type :=
| StillOpen
| ClosedOK
| ClosedError.

Record websocket : Type := mkWebsocket {
  inbound : list frame;
  at_end : queue_end;
  sent : list json;         (* the values given to json.dumps, newest first *)
  sends_before_close : nat  (* the sends the client can still make before
                               the close of the connection arrives *)
}.

(** [await websocket.send(json.dumps(v))]: on a connection that stays
    open the frame is sent; on one that the server closes it is sent as
    long as the close has not arrived, and raises [ConnectionClosed] once
    it has.  The frames received before the close stay in the queue. *)
Definition ws_send (ws : websocket) (v : json) : outcome websocket :=
  match at_end ws with
  | StillOpen =>
      Returns (mkWebsocket (inbound ws) (at_end ws) (v :: sent ws) (sends_before_close ws))
  | _ =>
      match sends_before_close ws with
      | S n => Returns (mkWebsocket (inbound ws) (at_end ws) (v :: sent ws) n)
      | O => Raises ConnectionClosed
      end
  end.

(** Can the client still send [n] messages. *)
Definition accepts_sends (ws : websocket) (n : nat) : bool :=
  match at_end ws with
  | StillOpen => true
  | _ => (n <=? sends_before_close ws)%nat
  end.

(** How a run of the generator ends for a caller that keeps iterating:
    it returns, it raises, or it waits for a frame that never comes. *)
Inductive ending : Type :=
| Exhausted
| Failed (e : exn)
| Waiting.

Record run : Type := mkRun {
  yielded : list json;
  ends : ending;
  sent_frames : list json
}.

Definition is_str (j : json) (s : string) : bool :=
  match j with JStr s' => s' =? s | _ => false end.

(** [async for message in websocket: ...]: the values yielded from the
    frames still to come, and how the loop ends. *)
Fixpoint listen (frames : list frame) (fin : queue_end) : list json * ending :=
  match frames with
  | [] =>
      ([], match fin with
           | StillOpen => Waiting
           | ClosedOK => Exhausted
           | ClosedError => Failed ConnectionClosed
           end)
  | Garbled e :: _ => ([], Failed e)
  | Text data :: rest =>
      match py_get data "type" JNull with
      | Raises e => ([], Failed e)
      | Returns type =>
          if is_str type "data" then
            match (payload <~ py_get data "payload" (JDict []) ;;
                   py_get payload "data" (JDict [])) with
            | Raises e => ([], Failed e)
            | Returns value =>
                let '(values, e) := listen rest fin in (value :: values, e)
            end
          else listen rest fin
      end
  end.

Record GraphQLSubscriptionClient : Type := mkSubscription { ws_endpoint : string }.

Definition connection_init_message : json :=
  JDict [("type", JStr "connection_init")].

Definition start_message (subscription_query : string) (variables : json) : json :=
  JDict [("id", JStr "1");
         ("type", JStr "start");
         ("payload", JDict [("query", JStr subscription_query);
                            ("variables", or_empty_dict variables)])].

(** [GraphQLSubscriptionClient.subscribe], run to its end.  [connect] is
    [websockets.connect(endpoint, subprotocols=...)]. *)
Definition subscribe (connect : string -> list string -> outcome websocket)
    (self : GraphQLSubscriptionClient) (subscription_query : string)
    (variables : json) : run :=
  match connect (ws_endpoint self) ["graphql-ws"] with
  | Raises e => mkRun [] (Failed e) []
  | Returns websocket =>
      match ws_send websocket connection_init_message with
      | Raises e => mkRun [] (Failed e) (sent websocket)
      | Returns websocket =>
          (* response = await websocket.recv() *)
          match inbound websocket with
          | [] =>
              mkRun [] (match at_end websocket with
                        | StillOpen => Waiting
                        | _ => Failed ConnectionClosed
                        end) (sent websocket)
          | response :: rest =>
              let websocket := mkWebsocket rest (at_end websocket) (sent websocket)
                                           (sends_before_close websocket) in
              match ws_send websocket (start_message subscription_query variables) with
              | Raises e => mkRun [] (Failed e) (sent websocket)
              | Returns websocket =>
                  let '(values, e) := listen (inbound websocket) (at_end websocket) in
                  mkRun values e (sent websocket)
              end
          end
      end
  end.

(** The messages of the graphql-ws protocol that the server sends. *)
Definition connection_ack : frame := Text (JDict [("type", JStr "connection_ack")]).
Definition data_message (value : json) : frame :=
  Text (JDict [("type", JStr "data"); ("id", JStr "1");
               ("payload", JDict [("data", value)])]).
Definition complete_message : frame :=
  Text (JDict [("type", JStr "complete"); ("id", JStr "1")]).
Definition error_message (errors : json) : frame :=
  Text (JDict [("type", JStr "error"); ("id", JStr "1"); ("payload", errors)]).

(** ** Requests, endpoints and frames used in the statements below *)

(** The request that [SimpleGraphQLClient.execute] posts. *)
Definition request_for (self : SimpleGraphQLClient) (query : string) (variables : json)
  : request :=
  mkRequest (endpoint self)
            (JDict (if truthy variables
                    then [("query", JStr query); ("variables", variables)]
                    else [("query", JStr query)]))
            (headers self).

(** The world after one more request. *)
Definition after_post (r : request) (w : world) : world :=
  mkWorld (r :: posted w) (stdout w) (lru w).

(** [e.errors] of a raised [GraphQLError], the one attribute the class has. *)
Definition exn_errors (e : exn) : option json :=
  match e with GraphQLError errors => Some errors | _ => None end.

(** The world after one more printed line. *)
Definition after_print (line : string) (w : world) : world :=
  mkWorld (posted w) (line :: stdout w) (lru w).

(** An endpoint that is down: every request fails, the [n]-th with its own
    cause. *)
Definition endpoint_down (hist : list request) (r : request) : outcome json :=
  Raises (RequestException ("connection refused #" ++ int_repr (Z.of_nat (List.length hist)))).

(** An endpoint that answers every request with one envelope. *)
Definition endpoint_answering (envelope : json) (hist : list request) (r : request)
  : outcome json :=
  Returns envelope.

Definition boom : json := JDict [("message", JStr "boom")].

Definition failure_envelope : json := JDict [("errors", JList [boom])].

Definition partial_envelope (n : Z) : json :=
  JDict [("data", JDict [("book", JInt n)]); ("errors", JList [boom])].

(** [{"data":{"books":[{"id":1,"title":"1984"}]}}] *)
Definition books_envelope : json :=
  JDict [("data", JDict [("books",
    JList [JDict [("id", JInt 1); ("title", JStr "1984")]])])].

(** The same book with the two scalar fields that the query also asks for. *)
Definition full_books_envelope (genre published_year : json) : json :=
  JDict [("data", JDict [("books",
    JList [JDict [("id", JInt 1); ("title", JStr "1984");
                  ("genre", genre); ("publishedYear", published_year)]])])].

(** A server that accepts the connection and sends [frames]; its close,
    if any, arrives after the client has sent its two messages. *)
Definition serving (frames : list frame) (fin : queue_end)
    (url : string) (subprotocols : list string) : outcome websocket :=
  Returns (mkWebsocket frames fin [] 2).

(** A server that sends [frames] and closes at once: the close has
    arrived when the client, after [sends] messages, sends the next. *)
Definition closing_after (sends : nat) (frames : list frame) (fin : queue_end)
    (url : string) (subprotocols : list string) : outcome websocket :=
  Returns (mkWebsocket frames fin [] sends).

(** Stand-ins for the library functions in concrete runs: a string encoder
    for texts with nothing to escape, a decoder that inverts [dumps] over
    the values it is given, and a digest. *)
Definition quote_encoder (s : string) : string :=
  String "034" (s ++ String "034" "").

Definition loads_among (known : list json) (text : string) : outcome json :=
  match find (fun j => dumps quote_encoder false j =? text) known with
  | Some j => Returns j
  | None => Raises JSONDecodeError
  end.

Definition plain_digest (content : string) : string := content.

Definition books_answer : json :=
  JDict [("data", JDict [("books", JList [])])].

Definition demo_loads : string -> outcome json :=
  loads_among [JDict []; books_answer].

(** [CachedGraphQLClient("http://h/graphql", cache_size=1)] *)
Definition small_cache_client : CachedGraphQLClient :=
  CachedGraphQLClient_init 0 "http://h/graphql" (Some 1%Z).


(** ** TypedGraphQLClient: [get_book_by_id] and [create_book] *)

Definition get_book_by_id_query : string :=
"
        query GetBook($bookId: Int!) {
            book(id: $bookId) {
                id
                title
                genre
                publishedYear
                author {
                    id
                    name
                    birthYear
                }
            }
        }
        ".

Definition create_book_mutation : string :=
"
        mutation CreateBook($title: String!, $authorId: Int!, $genre: String!, $publishedYear: Int!) {
            createBook(title: $title, authorId: $authorId, genre: $genre, publishedYear: $publishedYear) {
                book {
                    id
                    title
                    genre
                    publishedYear
                    author {
                        id
                        name
                        birthYear
                    }
                }
            }
        }
        ".

(** What both operations do with [book_data]:
    [if not book_data: return None], then the author and the book as in
    [get_all_books]. *)
Definition optional_book (book_data : json) : outcome (option Book) :=
  if negb (truthy book_data) then Returns None
  else
    book <~ book_of book_data ;;
    Returns (Some book).

Section TypedOperations.
Variable server : list request -> request -> outcome json.

(** [TypedGraphQLClient.get_book_by_id] *)
Definition get_book_by_id (self : TypedGraphQLClient) (book_id : Z) : M (option Book) :=
  let variables := JDict [("bookId", JInt book_id)] in
  result <- execute server (typed_client self) get_book_by_id_query variables ;;
  lift (data <~ py_get result "data" (JDict []) ;;
        book_data <~ py_get data "book" JNull ;;
        optional_book book_data).

(** [TypedGraphQLClient.create_book] *)
Definition create_book (self : TypedGraphQLClient) (title : string) (author_id : Z)
    (genre : string) (published_year : Z) : M (option Book) :=
  let variables := JDict [("title", JStr title);
                          ("authorId", JInt author_id);
                          ("genre", JStr genre);
                          ("publishedYear", JInt published_year)] in
  result <- execute server (typed_client self) create_book_mutation variables ;;
  lift (data <~ py_get result "data" (JDict []) ;;
        created <~ py_get data "createBook" (JDict []) ;;
        book_data <~ py_get created "book" JNull ;;
        optional_book book_data).
End TypedOperations.

(** ** Further endpoints, messages and worlds used in the statements *)

(** The line that [execute_with_retry] prints after the failed attempt
    number [attempt] (counted from 0). *)
Definition retry_line (self : RobustGraphQLClient) (attempt : Z) : string :=
  "Request failed, retrying... ("
    ++ int_repr (attempt + 1) ++ "/" ++ int_repr (max_retries self) ++ ")".

(** An endpoint that fails its first [k] requests and then answers. *)
Definition flaky_endpoint (k : nat) (envelope : json)
    (hist : list request) (r : request) : outcome json :=
  if (List.length hist <? k)%nat
  then Raises (RequestException "timed out")
  else Returns envelope.

(** An endpoint whose failure is not a [RequestException]. *)
Definition endpoint_raising (e : exn) (hist : list request) (r : request)
  : outcome json :=
  Raises e.

(** A message of the server: a [data] message for the subscription, or a
    message of another type with whatever fields. *)
Inductive message : Type :=
| Data (value : json)
| Control (type : string) (fields : list (string * json)).

Definition frame_of (m : message) : frame :=
  match m with
  | Data value => data_message value
  | Control type fields => Text (JDict (("type", JStr type) :: fields))
  end.

Definition data_values (ms : list message) : list json :=
  flat_map (fun m => match m with Data value => [value] | Control _ _ => [] end) ms.

Definition is_control_data (m : message) : bool :=
  match m with Control type _ => type =? "data" | Data _ => false end.

(** How the loop over the frames ends once the queue is empty. *)
Definition ending_of (fin : queue_end) : ending :=
  match fin with
  | StillOpen => Waiting
  | ClosedOK => Exhausted
  | ClosedError => Failed ConnectionClosed
  end.

(** One book as the endpoint sends it. *)
Definition orwell : json :=
  JDict [("id", JInt 3); ("name", JStr "George Orwell"); ("birthYear", JInt 1903)].

Definition book_1984 : json :=
  JDict [("id", JInt 3); ("title", JStr "1984"); ("genre", JStr "Dystopian");
         ("publishedYear", JInt 1949); ("author", orwell)].

Definition book_gatsby : json :=
  JDict [("id", JInt 1); ("title", JStr "The Great Gatsby"); ("genre", JStr "Fiction");
         ("publishedYear", JInt 1925)].

(** The variables that [_execute_cached] gives to the transport:
    [json.loads(variables_json) if variables_json else None]. *)
Definition variables_of_text (loads : string -> outcome json) (variables_json : string)
  : outcome json :=
  if variables_json =? "" then Returns JNull else loads variables_json.

(** A full memo table: one entry for each of 128 instances. *)
Definition full_table : list (lru_key * string) :=
  map (fun i => ((i, "{ books { id } }", "{}"), "{}")) (seq 1 lru_maxsize).

(** An endpoint that answers the [n]-th request with the number [n]. *)
Definition counting_endpoint (hist : list request) (r : request) : outcome json :=
  Returns (JInt (Z.of_nat (List.length hist))).

Definition number_loads (text : string) : outcome json :=
  loads_among [JDict []; JInt 0; JInt 1; JInt 2] text.

(** A second instance of the cached client. *)
Definition other_cache_client : CachedGraphQLClient :=
  CachedGraphQLClient_init 1 "http://h/graphql" None.

(** * Properties *)

(** ** The transport and the retry policy *)

Lemma execute_run server self query variables w :
  execute server self query variables w =
  (server (posted w) (request_for self query variables),
   after_post (request_for self query variables) w).
Proof.
  unfold execute, request_for, requests_post, after_post.
  destruct (truthy variables); reflexivity.
Qed.

Lemma attempt_once_transport_error server self query variables w e :
  server (posted w) (request_for (robust_client self) query variables) = Raises e ->
  attempt_once server self query variables w =
  (Raises e, after_post (request_for (robust_client self) query variables) w).
Proof.
  intros Hs. unfold attempt_once, bind. rewrite execute_run, Hs. reflexivity.
Qed.

Lemma attempt_once_errors_key server self query variables w envelope errors :
  server (posted w) (request_for (robust_client self) query variables)
    = Returns (JDict envelope) ->
  dict_lookup "errors" envelope = Some errors ->
  attempt_once server self query variables w =
  (Raises (GraphQLError errors),
   after_post (request_for (robust_client self) query variables) w).
Proof.
  intros Hs Hl. unfold attempt_once, bind, lift, raise.
  rewrite execute_run, Hs. cbn. rewrite Hl. reflexivity.
Qed.

Lemma attempt_once_returns server self query variables w result w' :
  attempt_once server self query variables w = (Returns result, w') ->
  server (posted w) (request_for (robust_client self) query variables) = Returns result /\
  py_contains "errors" result = Returns false /\
  w' = after_post (request_for (robust_client self) query variables) w.
Proof.
  unfold attempt_once, bind, lift, raise, ret. rewrite execute_run.
  destruct (server _ _) as [res | e]; [| discriminate].
  destruct (py_contains "errors" res) as [[|] | e] eqn:Hc; try discriminate.
  - destruct (py_getitem res "errors"); discriminate.
  - intros H. injection H as <- <-. auto.
Qed.

Lemma range_positive n :
  (0 < n)%Z -> exists rest, range n = 0%Z :: rest.
Proof.
  intros Hn. unfold range.
  destruct (Z.to_nat n) as [| m] eqn:E; [lia |].
  cbn. eauto.
Qed.

(** With at least one attempt allowed, an envelope that has the key
    [errors] ends the call at the first attempt. *)
Lemma retry_errors_key server self query variables w envelope errors :
  (0 < max_retries self)%Z ->
  server (posted w) (request_for (robust_client self) query variables)
    = Returns (JDict envelope) ->
  dict_lookup "errors" envelope = Some errors ->
  execute_with_retry server self query variables w =
  (Raises (GraphQLError errors),
   after_post (request_for (robust_client self) query variables) w).
Proof.
  intros Hn Hs Hl. unfold execute_with_retry.
  destruct (range_positive _ Hn) as [rest ->].
  cbn [retry_loop].
  rewrite (attempt_once_errors_key _ _ _ _ _ _ _ Hs Hl). reflexivity.
Qed.

(** What the retry loop returns is what the transport returned last, and
    the test [in] found no [errors] in it. *)
Lemma retry_loop_returns server self query variables attempts :
  forall w result w',
    retry_loop server self query variables attempts w = (Returns result, w') ->
    py_contains "errors" result = Returns false /\
    exists hist, server hist (request_for (robust_client self) query variables)
                 = Returns result.
Proof.
  induction attempts as [| attempt rest IH]; intros w result w' H.
  - discriminate.
  - cbn [retry_loop] in H.
    destruct (attempt_once server self query variables w) as [[res | e] w1] eqn:E.
    + injection H as <- <-.
      apply attempt_once_returns in E. destruct E as (Hs & Hc & _). eauto.
    + destruct (is_request_exception e); [| discriminate].
      destruct (attempt =? max_retries self - 1)%Z; [discriminate |].
      unfold bind, print in H. eapply IH; eassumption.
Qed.

Lemma retry_loop_again server self query variables attempt rest w cause :
  server (posted w) (request_for (robust_client self) query variables)
    = Raises (RequestException cause) ->
  (attempt =? max_retries self - 1)%Z = false ->
  retry_loop server self query variables (attempt :: rest) w =
  retry_loop server self query variables rest
    (after_print ("Request failed, retrying... ("
                  ++ int_repr (attempt + 1) ++ "/" ++ int_repr (max_retries self) ++ ")")
       (after_post (request_for (robust_client self) query variables) w)).
Proof.
  intros Hs Hlast. cbn [retry_loop].
  rewrite (attempt_once_transport_error _ _ _ _ _ _ Hs).
  cbn [is_request_exception]. rewrite Hlast. reflexivity.
Qed.

Lemma retry_loop_last server self query variables attempt rest w cause :
  server (posted w) (request_for (robust_client self) query variables)
    = Raises (RequestException cause) ->
  (attempt =? max_retries self - 1)%Z = true ->
  retry_loop server self query variables (attempt :: rest) w =
  (Raises (RequestException cause),
   after_post (request_for (robust_client self) query variables) w).
Proof.
  intros Hs Hlast. cbn [retry_loop].
  rewrite (attempt_once_transport_error _ _ _ _ _ _ Hs).
  cbn [is_request_exception]. rewrite Hlast. reflexivity.
Qed.

(** C2: a transport that raises a transport error at every attempt is
    invoked exactly three times by [execute_with_retry] with three attempts
    allowed, and the call then raises the transport error of the third
    invocation, with its cause, not the generic exception. *)
Theorem retry_exhausted_raises_last_transport_error
    server endpoint query variables w :
  (forall hist x, exists cause, server hist x = Raises (RequestException cause)) ->
  exists cause w',
    execute_with_retry server (RobustGraphQLClient_init endpoint (Some 3%Z))
                       query variables w
      = (Raises (RequestException cause), w') /\
    posted w' =
      request_for (SimpleGraphQLClient_init endpoint None) query variables ::
      request_for (SimpleGraphQLClient_init endpoint None) query variables ::
      request_for (SimpleGraphQLClient_init endpoint None) query variables ::
      posted w /\
    server (request_for (SimpleGraphQLClient_init endpoint None) query variables ::
            request_for (SimpleGraphQLClient_init endpoint None) query variables ::
            posted w)
           (request_for (SimpleGraphQLClient_init endpoint None) query variables)
      = Raises (RequestException cause).
Proof.
  intros Hdown.
  set (self := RobustGraphQLClient_init endpoint (Some 3%Z)).
  set (r := request_for (SimpleGraphQLClient_init endpoint None) query variables).
  destruct (Hdown (posted w) r) as [c1 H1].
  destruct (Hdown (r :: posted w) r) as [c2 H2].
  destruct (Hdown (r :: r :: posted w) r) as [c3 H3].
  exists c3. eexists. split; [| split; [| exact H3]].
  - unfold execute_with_retry.
    change (range (max_retries self)) with [0%Z; 1%Z; 2%Z].
    rewrite (retry_loop_again server self query variables 0 _ w c1 H1 eq_refl).
    rewrite (retry_loop_again server self query variables 1 _
               (after_print _ (after_post r w)) c2 H2 eq_refl).
    rewrite (retry_loop_last server self query variables 2 _
               (after_print _ (after_post r (after_print _ (after_post r w)))) c3 H3 eq_refl).
    reflexivity.
  - reflexivity.
Qed.

Lemma retry_exhausted_witness :
  (forall hist x, exists cause, endpoint_down hist x = Raises (RequestException cause)) /\
  exists cause w',
    execute_with_retry endpoint_down (RobustGraphQLClient_init "http://h/graphql" (Some 3%Z))
                       "{ books { id } }" JNull fresh_world
      = (Raises (RequestException cause), w') /\
    posted w' =
      request_for (SimpleGraphQLClient_init "http://h/graphql" None) "{ books { id } }" JNull ::
      request_for (SimpleGraphQLClient_init "http://h/graphql" None) "{ books { id } }" JNull ::
      request_for (SimpleGraphQLClient_init "http://h/graphql" None) "{ books { id } }" JNull ::
      posted fresh_world /\
    endpoint_down
      (request_for (SimpleGraphQLClient_init "http://h/graphql" None) "{ books { id } }" JNull ::
       request_for (SimpleGraphQLClient_init "http://h/graphql" None) "{ books { id } }" JNull ::
       posted fresh_world)
      (request_for (SimpleGraphQLClient_init "http://h/graphql" None) "{ books { id } }" JNull)
      = Raises (RequestException cause).
Proof.
  split.
  - intros hist x. eexists. reflexivity.
  - apply (retry_exhausted_raises_last_transport_error
             endpoint_down "http://h/graphql" "{ books { id } }" JNull fresh_world).
    intros hist x. eexists. reflexivity.
Defined.

(** C3, as stated, fails: with no attempt allowed the loop body never runs,
    the transport is not invoked and the generic exception is raised. *)
Lemma semantic_error_zero_attempts_counterexample :
  ~ (forall server endpoint (max_attempts : Z) query variables w envelope first rest,
        server (posted w)
               (request_for (SimpleGraphQLClient_init endpoint None) query variables)
          = Returns (JDict envelope) ->
        dict_lookup "errors" envelope = Some (JList (first :: rest)) ->
        exists errors w',
          execute_with_retry server (RobustGraphQLClient_init endpoint (Some max_attempts))
                             query variables w
            = (Raises (GraphQLError errors), w') /\
          posted w' =
            request_for (SimpleGraphQLClient_init endpoint None) query variables
              :: posted w).
Proof.
  intros H.
  destruct (H (endpoint_answering failure_envelope) "http://h/graphql" 0%Z
              "{ books { id } }" JNull fresh_world
              [("errors", JList [boom])] boom [] eq_refl eq_refl)
    as (errors & w' & Hrun & _).
  cbv in Hrun. discriminate Hrun.
Qed.

(** C3 (amended): for every request and every number of attempts that
    allows at least one, a transport that returns an envelope whose
    [errors] is a non-empty sequence is invoked exactly once, and the call
    raises [GraphQLError] at once: no retry, no retry line printed. *)
Theorem semantic_error_not_retried
    server endpoint max_attempts query variables w envelope first rest :
  (0 < max_attempts)%Z ->
  server (posted w)
         (request_for (SimpleGraphQLClient_init endpoint None) query variables)
    = Returns (JDict envelope) ->
  dict_lookup "errors" envelope = Some (JList (first :: rest)) ->
  exists w',
    execute_with_retry server (RobustGraphQLClient_init endpoint (Some max_attempts))
                       query variables w
      = (Raises (GraphQLError (JList (first :: rest))), w') /\
    posted w' =
      request_for (SimpleGraphQLClient_init endpoint None) query variables :: posted w /\
    stdout w' = stdout w.
Proof.
  intros Hn Hs Hl.
  exists (after_post (request_for (SimpleGraphQLClient_init endpoint None) query variables) w).
  split; [| split; reflexivity].
  apply (retry_errors_key server (RobustGraphQLClient_init endpoint (Some max_attempts))
           query variables w envelope _ Hn Hs Hl).
Qed.

Lemma semantic_error_not_retried_witness :
  (0 < 5)%Z /\
  exists w',
    execute_with_retry (endpoint_answering failure_envelope)
                       (RobustGraphQLClient_init "http://h/graphql" (Some 5%Z))
                       "{ books { id } }" JNull fresh_world
      = (Raises (GraphQLError (JList [boom])), w') /\
    posted w' =
      request_for (SimpleGraphQLClient_init "http://h/graphql" None) "{ books { id } }" JNull
        :: posted fresh_world /\
    stdout w' = stdout fresh_world.
Proof.
  split; [lia |].
  apply (semantic_error_not_retried (endpoint_answering failure_envelope)
           "http://h/graphql" 5%Z "{ books { id } }" JNull fresh_world
           [("errors", JList [boom])] boom []); [lia | reflexivity | reflexivity].
Defined.

(** C8, as stated, fails: no observation of the raised exception gives the
    partial data, since two envelopes with the same errors and different
    data raise the same exception. *)
Lemma partial_data_not_carried_counterexample :
  ~ (exists partial_data : exn -> json,
      forall server endpoint (max_attempts : Z) query variables w envelope data first rest,
        (0 < max_attempts)%Z ->
        server (posted w)
               (request_for (SimpleGraphQLClient_init endpoint None) query variables)
          = Returns (JDict envelope) ->
        dict_lookup "data" envelope = Some data ->
        dict_lookup "errors" envelope = Some (JList (first :: rest)) ->
        exists e w',
          execute_with_retry server (RobustGraphQLClient_init endpoint (Some max_attempts))
                             query variables w
            = (Raises e, w') /\
          partial_data e = data).
Proof.
  intros [partial_data H].
  destruct (H (endpoint_answering (partial_envelope 1)) "http://h/graphql" 3%Z
              "{ book(id: 1) { id } }" JNull fresh_world
              [("data", JDict [("book", JInt 1)]); ("errors", JList [boom])]
              (JDict [("book", JInt 1)]) boom [] eq_refl eq_refl eq_refl eq_refl)
    as (e1 & w1 & Hrun1 & Hdata1).
  destruct (H (endpoint_answering (partial_envelope 2)) "http://h/graphql" 3%Z
              "{ book(id: 1) { id } }" JNull fresh_world
              [("data", JDict [("book", JInt 2)]); ("errors", JList [boom])]
              (JDict [("book", JInt 2)]) boom [] eq_refl eq_refl eq_refl eq_refl)
    as (e2 & w2 & Hrun2 & Hdata2).
  cbv in Hrun1, Hrun2.
  injection Hrun1 as <- _. injection Hrun2 as <- _.
  rewrite Hdata1 in Hdata2. discriminate Hdata2.
Qed.

(** C8 (amended): for every envelope that holds both [data] and a
    non-empty [errors] sequence, with at least one attempt allowed, the
    exception raised to the caller is the [GraphQLError] whose one
    attribute [errors] is the whole sequence, in its order; the exception
    is the same whatever [data] holds. *)
Theorem graphql_error_carries_error_sequence
    server self query variables w envelope data first rest :
  (0 < max_retries self)%Z ->
  server (posted w) (request_for (robust_client self) query variables)
    = Returns (JDict envelope) ->
  dict_lookup "data" envelope = Some data ->
  dict_lookup "errors" envelope = Some (JList (first :: rest)) ->
  exists e w',
    execute_with_retry server self query variables w = (Raises e, w') /\
    exn_errors e = Some (JList (first :: rest)) /\
    e = GraphQLError (JList (first :: rest)).
Proof.
  intros Hn Hs _ Hl.
  exists (GraphQLError (JList (first :: rest))).
  exists (after_post (request_for (robust_client self) query variables) w).
  split; [| split; reflexivity].
  apply (retry_errors_key server self query variables w envelope _ Hn Hs Hl).
Qed.

Lemma graphql_error_carries_error_sequence_witness :
  (0 < 3)%Z /\
  exists e w',
    execute_with_retry (endpoint_answering (partial_envelope 1))
                       (RobustGraphQLClient_init "http://h/graphql" None)
                       "{ book(id: 1) { id } }" JNull fresh_world = (Raises e, w') /\
    exn_errors e = Some (JList [boom]) /\
    e = GraphQLError (JList [boom]).
Proof.
  split; [lia |].
  apply (graphql_error_carries_error_sequence (endpoint_answering (partial_envelope 1))
           (RobustGraphQLClient_init "http://h/graphql" None)
           "{ book(id: 1) { id } }" JNull fresh_world
           [("data", JDict [("book", JInt 1)]); ("errors", JList [boom])]
           (JDict [("book", JInt 1)]) boom []);
    [reflexivity | reflexivity | reflexivity | reflexivity].
Defined.

(** C10: when the envelope that the first attempt receives has the key
    [errors] at all (an empty sequence included, [data] present or not),
    [execute_with_retry] raises [GraphQLError] at that attempt; and every
    value that [execute_with_retry] returns is one the transport returned
    and in which [in] finds no [errors]. *)
Theorem errors_key_always_raises server self query variables w :
  (forall envelope errors,
      (0 < max_retries self)%Z ->
      server (posted w) (request_for (robust_client self) query variables)
        = Returns (JDict envelope) ->
      dict_lookup "errors" envelope = Some errors ->
      execute_with_retry server self query variables w =
      (Raises (GraphQLError errors),
       after_post (request_for (robust_client self) query variables) w)) /\
  (forall result w',
      execute_with_retry server self query variables w = (Returns result, w') ->
      py_contains "errors" result = Returns false /\
      (forall envelope, result = JDict envelope -> dict_lookup "errors" envelope = None) /\
      exists hist,
        server hist (request_for (robust_client self) query variables) = Returns result).
Proof.
  split.
  - intros envelope errors Hn Hs Hl. exact (retry_errors_key _ _ _ _ _ _ _ Hn Hs Hl).
  - intros result w' Hrun.
    destruct (retry_loop_returns _ _ _ _ _ _ _ _ Hrun) as [Hc Hhist].
    split; [exact Hc | split; [| exact Hhist]].
    intros envelope ->. cbn in Hc.
    destruct (dict_lookup "errors" envelope); [discriminate | reflexivity].
Qed.

Lemma errors_key_always_raises_witness :
  execute_with_retry
    (endpoint_answering (JDict [("data", JDict [("book", JNull)]); ("errors", JList [])]))
    (RobustGraphQLClient_init "http://h/graphql" None) "{ book(id: 9) { id } }" JNull
    fresh_world
  = (Raises (GraphQLError (JList [])),
     after_post (request_for (SimpleGraphQLClient_init "http://h/graphql" None)
                             "{ book(id: 9) { id } }" JNull) fresh_world)
  /\
  py_contains "errors" (JDict [("data", JDict [("book", JNull)])]) = Returns false.
Proof.
  split.
  - apply (proj1 (errors_key_always_raises
                    (endpoint_answering
                       (JDict [("data", JDict [("book", JNull)]); ("errors", JList [])]))
                    (RobustGraphQLClient_init "http://h/graphql" None)
                    "{ book(id: 9) { id } }" JNull fresh_world)
                 [("data", JDict [("book", JNull)]); ("errors", JList [])] (JList []));
      reflexivity.
  - apply (proj2 (errors_key_always_raises
                    (endpoint_answering (JDict [("data", JDict [("book", JNull)])]))
                    (RobustGraphQLClient_init "http://h/graphql" None)
                    "{ book(id: 9) { id } }" JNull fresh_world)
                 (JDict [("data", JDict [("book", JNull)])])
                 (after_post (request_for (SimpleGraphQLClient_init "http://h/graphql" None)
                                          "{ book(id: 9) { id } }" JNull) fresh_world)).
    reflexivity.
Defined.

(** ** The entity mapper *)

(** C7, as stated, fails: the envelope of the claim has no [genre], and
    [Book(...)] reads [book_data["genre"]], which raises [KeyError]. *)
Lemma books_without_genre_counterexample :
  ~ (forall server endpoint w,
        server (posted w)
               (request_for (SimpleGraphQLClient_init endpoint None)
                            get_all_books_query JNull)
          = Returns books_envelope ->
        exists book w',
          get_all_books server (TypedGraphQLClient_init endpoint) w
            = (Returns [book], w') /\
          book_id book = JInt 1 /\
          book_title book = JStr "1984" /\
          book_author book = None).
Proof.
  intros H.
  destruct (H (endpoint_answering books_envelope) "http://h/graphql" fresh_world eq_refl)
    as (book & w' & Hrun & _).
  cbv in Hrun. discriminate Hrun.
Qed.

Lemma books_without_genre_raises :
  fst (get_all_books (endpoint_answering books_envelope)
                     (TypedGraphQLClient_init "http://h/graphql") fresh_world)
  = Raises (KeyError "genre").
Proof. reflexivity. Qed.

(** C7 (amended): against an endpoint that returns the envelope with one
    book that has id 1, title "1984", a genre and a year of publication,
    and no author, [get_all_books] yields a list of length one whose
    element has [id = 1], [title = "1984"], these two fields, and
    [author = None]. *)
Theorem get_all_books_maps_one_book server endpoint w genre published_year :
  server (posted w)
         (request_for (SimpleGraphQLClient_init endpoint None) get_all_books_query JNull)
    = Returns (full_books_envelope genre published_year) ->
  exists w',
    get_all_books server (TypedGraphQLClient_init endpoint) w
      = (Returns [mkBook (JInt 1) (JStr "1984") genre published_year None], w') /\
    posted w' =
      request_for (SimpleGraphQLClient_init endpoint None) get_all_books_query JNull
        :: posted w.
Proof.
  intros Hs. eexists. split.
  - unfold get_all_books, bind, lift, TypedGraphQLClient_init, typed_client.
    rewrite execute_run, Hs. reflexivity.
  - reflexivity.
Qed.

Lemma get_all_books_maps_one_book_witness :
  endpoint_answering (full_books_envelope (JStr "Dystopian") (JInt 1949))
    (posted fresh_world)
    (request_for (SimpleGraphQLClient_init "http://h/graphql" None) get_all_books_query JNull)
    = Returns (full_books_envelope (JStr "Dystopian") (JInt 1949)) /\
  exists w',
    get_all_books (endpoint_answering (full_books_envelope (JStr "Dystopian") (JInt 1949)))
                  (TypedGraphQLClient_init "http://h/graphql") fresh_world
      = (Returns [mkBook (JInt 1) (JStr "1984") (JStr "Dystopian") (JInt 1949) None], w') /\
    posted w' =
      request_for (SimpleGraphQLClient_init "http://h/graphql" None) get_all_books_query JNull
        :: posted fresh_world.
Proof.
  split; [reflexivity |].
  apply (get_all_books_maps_one_book
           (endpoint_answering (full_books_envelope (JStr "Dystopian") (JInt 1949)))
           "http://h/graphql" fresh_world (JStr "Dystopian") (JInt 1949)).
  reflexivity.
Defined.

(** ** The subscription session *)

Lemma listen_data value rest fin :
  listen (data_message value :: rest) fin =
  (value :: fst (listen rest fin), snd (listen rest fin)).
Proof.
  cbn. destruct (listen rest fin). reflexivity.
Qed.

(** A [complete] message is skipped like every message whose type is not
    [data]. *)
Lemma listen_complete rest fin :
  listen (complete_message :: rest) fin = listen rest fin.
Proof. reflexivity. Qed.

Lemma subscribe_run connect self query variables ws first rest :
  connect (ws_endpoint self) ["graphql-ws"] = Returns ws ->
  accepts_sends ws 2 = true ->
  inbound ws = first :: rest ->
  subscribe connect self query variables =
  mkRun (fst (listen rest (at_end ws))) (snd (listen rest (at_end ws)))
        (start_message query variables :: connection_init_message :: sent ws).
Proof.
  intros Hc Hsends Hin. unfold subscribe. rewrite Hc.
  destruct ws as [frames fin out k]. cbn in Hin. subst frames.
  unfold accepts_sends in Hsends. cbn in Hsends.
  destruct fin; [| destruct k as [| [| k]]; try discriminate Hsends ..];
    cbn; destruct (listen rest _); reflexivity.
Qed.

(** When the close has arrived before both messages are sent, the send
    that comes too late raises, and nothing is yielded. *)
Lemma subscribe_refused connect self query variables ws first rest :
  connect (ws_endpoint self) ["graphql-ws"] = Returns ws ->
  accepts_sends ws 2 = false ->
  inbound ws = first :: rest ->
  subscribe connect self query variables =
  mkRun [] (Failed ConnectionClosed)
        (match sends_before_close ws with
         | O => sent ws
         | S _ => connection_init_message :: sent ws
         end).
Proof.
  intros Hc Hsends Hin. unfold subscribe. rewrite Hc.
  destruct ws as [frames fin out k]. cbn in Hin. subst frames.
  unfold accepts_sends in Hsends. cbn in Hsends.
  destruct fin; [discriminate Hsends | |];
    destruct k as [| [| k]]; try discriminate Hsends; reflexivity.
Qed.

(** C1, as stated, fails: a [data] message that the server sends after
    [complete] is yielded as well. *)
Lemma subscription_after_complete_counterexample :
  ~ (forall connect self query variables ws p1 p2 rest,
        connect (ws_endpoint self) ["graphql-ws"] = Returns ws ->
        inbound ws = connection_ack :: data_message p1 :: data_message p2
                       :: complete_message :: rest ->
        yielded (subscribe connect self query variables) = [p1; p2] /\
        ends (subscribe connect self query variables) = Exhausted).
Proof.
  intros H.
  destruct (H (serving [connection_ack; data_message (JInt 1); data_message (JInt 2);
                        complete_message; data_message (JInt 3)] ClosedOK)
              (mkSubscription "ws://h/graphql") "subscription { bookAdded { id } }" JNull
              _ (JInt 1) (JInt 2) [data_message (JInt 3)] eq_refl eq_refl)
    as [Hy _].
  cbv in Hy. discriminate Hy.
Qed.

(** After [complete], with the connection left open, the generator does
    not return: it waits for the next frame. *)
Lemma subscription_waits_after_complete :
  ends (subscribe
          (serving [connection_ack; data_message (JInt 1); data_message (JInt 2);
                    complete_message] StillOpen)
          (mkSubscription "ws://h/graphql") "subscription { bookAdded { id } }" JNull)
  = Waiting.
Proof. reflexivity. Qed.

(** C1 (amended): when the server, after the acknowledgement, sends
    [data(1)], [data(2)], [complete] and then closes the connection, and
    the close arrives after the client has sent [start], the stream
    yields exactly payload 1, then payload 2, and then terminates.  The
    stream ends where the connection ends: [complete] itself is skipped,
    and the frames after it are listened to like the ones before.  When
    the close arrives before [start] is sent, the stream yields nothing
    and raises [ConnectionClosed]. *)
Theorem subscription_yields_in_order_until_close
    connect self query variables ws p1 p2 rest :
  connect (ws_endpoint self) ["graphql-ws"] = Returns ws ->
  inbound ws = connection_ack :: data_message p1 :: data_message p2
                 :: complete_message :: rest ->
  (accepts_sends ws 2 = true ->
   (yielded (subscribe connect self query variables)
      = p1 :: p2 :: fst (listen rest (at_end ws)) /\
    ends (subscribe connect self query variables) = snd (listen rest (at_end ws))) /\
   (rest = [] -> at_end ws = ClosedOK ->
    yielded (subscribe connect self query variables) = [p1; p2] /\
    ends (subscribe connect self query variables) = Exhausted)) /\
  (accepts_sends ws 2 = false ->
   yielded (subscribe connect self query variables) = [] /\
   ends (subscribe connect self query variables) = Failed ConnectionClosed).
Proof.
  intros Hc Hin. split.
  - intros Hsends.
    rewrite (subscribe_run _ _ _ _ _ _ _ Hc Hsends Hin).
    cbn [yielded ends].
    rewrite !listen_data, listen_complete. cbn [fst snd].
    split; [split; reflexivity |].
    intros -> ->. split; reflexivity.
  - intros Hsends.
    rewrite (subscribe_refused _ _ _ _ _ _ _ Hc Hsends Hin).
    split; reflexivity.
Qed.

Lemma subscription_yields_in_order_until_close_witness :
  (yielded (subscribe
              (serving [connection_ack; data_message (JInt 1); data_message (JInt 2);
                        complete_message] ClosedOK)
              (mkSubscription "ws://h/graphql") "subscription { bookAdded { id } }" JNull)
     = [JInt 1; JInt 2] /\
   ends (subscribe
           (serving [connection_ack; data_message (JInt 1); data_message (JInt 2);
                     complete_message] ClosedOK)
           (mkSubscription "ws://h/graphql") "subscription { bookAdded { id } }" JNull)
     = Exhausted) /\
  (yielded (subscribe
              (closing_after 1 [connection_ack; data_message (JInt 1); data_message (JInt 2);
                                complete_message] ClosedOK)
              (mkSubscription "ws://h/graphql") "subscription { bookAdded { id } }" JNull)
     = [] /\
   ends (subscribe
           (closing_after 1 [connection_ack; data_message (JInt 1); data_message (JInt 2);
                             complete_message] ClosedOK)
           (mkSubscription "ws://h/graphql") "subscription { bookAdded { id } }" JNull)
     = Failed ConnectionClosed).
Proof.
  split.
  - apply (proj2 (proj1 (subscription_yields_in_order_until_close
                    (serving [connection_ack; data_message (JInt 1); data_message (JInt 2);
                              complete_message] ClosedOK)
                    (mkSubscription "ws://h/graphql") "subscription { bookAdded { id } }" JNull
                    (mkWebsocket [connection_ack; data_message (JInt 1);
                                  data_message (JInt 2); complete_message] ClosedOK [] 2)
                    (JInt 1) (JInt 2) [] eq_refl eq_refl) eq_refl));
      reflexivity.
  - apply (proj2 (subscription_yields_in_order_until_close
                    (closing_after 1 [connection_ack; data_message (JInt 1);
                                      data_message (JInt 2); complete_message] ClosedOK)
                    (mkSubscription "ws://h/graphql") "subscription { bookAdded { id } }" JNull
                    (mkWebsocket [connection_ack; data_message (JInt 1);
                                  data_message (JInt 2); complete_message] ClosedOK [] 1)
                    (JInt 1) (JInt 2) [] eq_refl eq_refl)).
    reflexivity.
Defined.

(** C9, as stated, fails: a first message that is not the acknowledgement
    does not fail the session; the session goes on and yields. *)
Lemma handshake_without_ack_counterexample :
  ~ (forall connect self query variables ws type first_items rest,
        connect (ws_endpoint self) ["graphql-ws"] = Returns ws ->
        inbound ws = Text (JDict first_items) :: rest ->
        dict_lookup "type" first_items = Some (JStr type) ->
        type <> "connection_ack" ->
        exists e, ends (subscribe connect self query variables) = Failed e).
Proof.
  intros H.
  destruct (H (serving [error_message (JStr "denied"); data_message (JInt 1)] ClosedOK)
              (mkSubscription "ws://h/graphql") "subscription { bookAdded { id } }" JNull
              _ "error" _ [data_message (JInt 1)] eq_refl eq_refl eq_refl)
    as [e He].
  - discriminate.
  - cbv in He. discriminate He.
Qed.

(** The first frame is received and not looked at: the run is the one
    that the acknowledgement in its place gives. *)
Lemma subscribe_first_frame_not_inspected connect self query variables ws first rest :
  connect (ws_endpoint self) ["graphql-ws"] = Returns ws ->
  inbound ws = first :: rest ->
  subscribe connect self query variables =
    subscribe (fun _ _ => Returns (mkWebsocket (connection_ack :: rest) (at_end ws) (sent ws)
                                               (sends_before_close ws)))
              self query variables.
Proof.
  intros Hc Hin. unfold subscribe. rewrite Hc.
  destruct ws as [frames fin out k]. cbn in Hin. subst frames.
  destruct fin, k as [| [| k]]; reflexivity.
Qed.

(** C9 at the failing input: the server answers [connection_init] with a
    [connection_error] message and, later, a [data] message.  The session
    does not fail: the refusal is taken for the acknowledgement, [start]
    is sent, the value is yielded and the stream ends with the
    connection. *)
Theorem handshake_takes_refusal_for_ack :
  subscribe
    (serving [Text (JDict [("type", JStr "connection_error");
                           ("payload", JDict [("message", JStr "denied")])]);
              data_message (JInt 1)] ClosedOK)
    (mkSubscription "ws://h/graphql") "subscription { bookAdded { id } }" JNull
  = mkRun [JInt 1] Exhausted
          [start_message "subscription { bookAdded { id } }" JNull; connection_init_message].
Proof.
  rewrite (subscribe_first_frame_not_inspected _ _ _ _
             (mkWebsocket [Text (JDict [("type", JStr "connection_error");
                                        ("payload", JDict [("message", JStr "denied")])]);
                           data_message (JInt 1)] ClosedOK [] 2)
             _ [data_message (JInt 1)] eq_refl eq_refl).
  reflexivity.
Qed.

(** ** The result cache *)

Lemma lru_key_eqb_refl k : lru_key_eqb k k = true.
Proof.
  destruct k as [[i q] v]. unfold lru_key_eqb.
  rewrite Nat.eqb_refl, !String.eqb_refl. reflexivity.
Qed.

Lemma lru_cached_hit k body w r :
  lru_find k (lru w) = Some r ->
  lru_cached k body w =
  (Returns r, mkWorld (posted w) (stdout w) ((k, r) :: lru_remove k (lru w))).
Proof. intros H. unfold lru_cached. rewrite H. reflexivity. Qed.

(** After a memoised call has returned, its key is in the table with the
    returned text. *)
Lemma lru_cached_stores k body w r w1 :
  lru_cached k body w = (Returns r, w1) ->
  lru_find k (lru w1) = Some r.
Proof.
  unfold lru_cached.
  destruct (lru_find k (lru w)) as [r0 |] eqn:Hfind.
  - intros H. injection H as <- <-. cbn. rewrite lru_key_eqb_refl. reflexivity.
  - destruct (body w) as [[r0 | e] w0]; [| discriminate].
    intros H. injection H as <- <-. cbn. rewrite lru_key_eqb_refl. reflexivity.
Qed.

(** A cached call that returned [V] is followed by a hit for every call
    with the same query and the same canonical text of the variables. *)
Lemma cached_execute_hit_after server enc loads self query variables variables' w V w1 :
  dumps enc true (or_empty_dict variables) = dumps enc true (or_empty_dict variables') ->
  cached_execute server enc loads self query variables true w = (Returns V, w1) ->
  exists w2,
    cached_execute server enc loads self query variables' true w1 = (Returns V, w2) /\
    posted w2 = posted w1.
Proof.
  intros Hkey. unfold cached_execute. cbn [negb]. rewrite <- Hkey.
  unfold bind, _execute_cached.
  set (k := (ident self, query, dumps enc true (or_empty_dict variables))).
  set (body := _execute_cached_body server enc loads self query
                 (dumps enc true (or_empty_dict variables))).
  destruct (lru_cached k body w) as [[r | e] w0] eqn:Hfirst; [| discriminate].
  unfold lift. intros H. injection H as Hloads <-.
  pose proof (lru_cached_stores _ _ _ _ _ Hfirst) as Hfind.
  rewrite (lru_cached_hit k body w0 r Hfind).
  eexists. split; [rewrite Hloads; reflexivity | reflexivity].
Qed.

(** C5: after a cached [execute] of a request has returned [V], the next
    cached [execute] of the same request returns [V] and posts nothing to
    the transport. *)
Theorem cached_execute_twice server enc loads self query variables w V w1 :
  cached_execute server enc loads self query variables true w = (Returns V, w1) ->
  exists w2,
    cached_execute server enc loads self query variables true w1 = (Returns V, w2) /\
    posted w2 = posted w1.
Proof.
  intros Hfirst.
  exact (cached_execute_hit_after server enc loads self query variables variables
           w V w1 eq_refl Hfirst).
Qed.

Lemma cached_execute_twice_witness :
  exists w1,
    cached_execute (endpoint_answering books_answer) quote_encoder demo_loads
                   small_cache_client "{ books { id } }" JNull true fresh_world
      = (Returns books_answer, w1) /\
    List.length (posted w1) = 1%nat /\
    exists w2,
      cached_execute (endpoint_answering books_answer) quote_encoder demo_loads
                     small_cache_client "{ books { id } }" JNull true w1
        = (Returns books_answer, w2) /\
      posted w2 = posted w1.
Proof.
  eexists. split; [vm_compute; reflexivity |]. split; [reflexivity |].
  apply (cached_execute_twice (endpoint_answering books_answer) quote_encoder demo_loads
           small_cache_client "{ books { id } }" JNull fresh_world books_answer).
  vm_compute. reflexivity.
Defined.

(** The table never grows beyond [maxsize=128]. *)
Lemma lru_remove_length k table :
  (List.length (lru_remove k table) <= List.length table)%nat.
Proof.
  induction table as [| [k' r] rest IH]; cbn; [lia |].
  destruct (lru_key_eqb k' k); cbn; lia.
Qed.

Lemma lru_remove_found k table r :
  lru_find k table = Some r ->
  S (List.length (lru_remove k table)) = List.length table.
Proof.
  induction table as [| [k' r'] rest IH]; cbn; [discriminate |].
  destruct (lru_key_eqb k' k); cbn; [reflexivity |].
  intros H. rewrite (IH H). reflexivity.
Qed.

Lemma lru_store_length k r table :
  (List.length table <= lru_maxsize)%nat ->
  (List.length (lru_store k r table) <= lru_maxsize)%nat.
Proof.
  assert (Hpos : (1 <= lru_maxsize)%nat) by (unfold lru_maxsize; lia).
  unfold lru_store. cbn [List.length].
  revert Hpos. generalize lru_maxsize as m. intros m Hpos Hlen.
  destruct (Nat.leb_spec m (List.length table)) as [Hfull | Hroom].
  - rewrite removelast_firstn_len, length_firstn. lia.
  - lia.
Qed.

Lemma lru_cached_bounded k body w o w' :
  (forall o0 w0, body w = (o0, w0) -> lru w0 = lru w) ->
  (List.length (lru w) <= lru_maxsize)%nat ->
  lru_cached k body w = (o, w') ->
  (List.length (lru w') <= lru_maxsize)%nat.
Proof.
  intros Hbody Hlen. unfold lru_cached.
  destruct (lru_find k (lru w)) as [r |] eqn:Hfind.
  - intros H. injection H as _ <-. cbn.
    rewrite (lru_remove_found _ _ _ Hfind). exact Hlen.
  - destruct (body w) as [[r | e] w0] eqn:Hb; intros H; injection H as _ <-.
    + cbn [lru]. apply lru_store_length. rewrite (Hbody _ _ eq_refl). exact Hlen.
    + rewrite (Hbody _ _ eq_refl). exact Hlen.
Qed.

Lemma cached_execute_table_bounded server enc loads self query variables use_cache w o w' :
  (List.length (lru w) <= lru_maxsize)%nat ->
  cached_execute server enc loads self query variables use_cache w = (o, w') ->
  (List.length (lru w') <= lru_maxsize)%nat.
Proof.
  intros Hlen. unfold cached_execute.
  destruct use_cache; cbn [negb].
  - unfold bind, _execute_cached.
    destruct (lru_cached _ _ w) as [[r | e] w0] eqn:Hc.
    + unfold lift. intros H. injection H as _ <-.
      eapply lru_cached_bounded; [| exact Hlen | exact Hc].
      intros o0 w1. unfold _execute_cached_body, bind, lift, ret.
      destruct (if _ =? "" then _ else _) as [v | e]; [| intros H; injection H as _ <-; reflexivity].
      rewrite execute_run.
      destruct (server _ _); intros H; injection H as _ <-; reflexivity.
    + intros H. injection H as _ <-.
      eapply lru_cached_bounded; [| exact Hlen | exact Hc].
      intros o0 w1. unfold _execute_cached_body, bind, lift, ret.
      destruct (if _ =? "" then _ else _) as [v | e0]; [| intros H; injection H as _ <-; reflexivity].
      rewrite execute_run.
      destruct (server _ _); intros H; injection H as _ <-; reflexivity.
  - rewrite execute_run. intros H. injection H as _ <-. exact Hlen.
Qed.

(** Storing into a full table drops its last entry, the least recently
    used one, and keeps the others. *)
Lemma lru_store_evicts_last k r table :
  List.length table = lru_maxsize ->
  lru_store k r table = (k, r) :: removelast table.
Proof.
  intros Hlen. unfold lru_store. rewrite Hlen, Nat.leb_refl. reflexivity.
Qed.

(** C6 at the failing input: a client made with [cache_size=1] holds two
    entries after two distinct queries, and the first query is then still
    answered from the table. *)
Theorem cache_size_is_ignored :
  exists w1 w2 w3,
    cached_execute (endpoint_answering books_answer) quote_encoder demo_loads
                   small_cache_client "{ books { id } }" JNull true fresh_world
      = (Returns books_answer, w1) /\
    cached_execute (endpoint_answering books_answer) quote_encoder demo_loads
                   small_cache_client "{ books { title } }" JNull true w1
      = (Returns books_answer, w2) /\
    cache_size small_cache_client = 1%Z /\
    List.length (lru w2) = 2%nat /\
    cached_execute (endpoint_answering books_answer) quote_encoder demo_loads
                   small_cache_client "{ books { id } }" JNull true w2
      = (Returns books_answer, w3) /\
    posted w3 = posted w2.
Proof.
  do 3 eexists.
  split; [vm_compute; reflexivity |].
  split; [vm_compute; reflexivity |].
  split; [reflexivity |].
  split; [reflexivity |].
  split; [vm_compute; reflexivity | reflexivity].
Qed.

(** ** The canonical text of the variables and the cache key *)

Lemma string_leb_refl a : (a <=? a)%string = true.
Proof.
  unfold String.leb.
  assert (H : String.compare a a = Eq) by (apply String_as_OT.cmp_eq; reflexivity).
  rewrite H. reflexivity.
Qed.

Lemma string_leb_trans a b c :
  (a <=? b)%string = true -> (b <=? c)%string = true -> (a <=? c)%string = true.
Proof.
  unfold String.leb.
  destruct (String.compare a b) eqn:Eab; try discriminate;
    destruct (String.compare b c) eqn:Ebc; try discriminate; intros _ _.
  - apply String.compare_eq_iff in Eab. subst b. rewrite Ebc. reflexivity.
  - apply String.compare_eq_iff in Eab. subst b. rewrite Ebc. reflexivity.
  - apply String.compare_eq_iff in Ebc. subst c. rewrite Eab. reflexivity.
  - assert (Hac : String.compare a c = Lt).
    { apply String_as_OT.cmp_lt.
      apply String_as_OT.lt_trans with b; apply String_as_OT.cmp_lt; assumption. }
    rewrite Hac. reflexivity.
Qed.

Section KeyOrder.
Context {V : Type}.

Lemma insert_item_permutation (kv : string * V) items :
  Permutation (insert_item kv items) (kv :: items).
Proof.
  induction items as [| kv' rest IH]; cbn; [reflexivity |].
  destruct (fst kv <=? fst kv')%string; [reflexivity |].
  rewrite IH. apply perm_swap.
Qed.

Lemma sort_items_permutation (items : list (string * V)) :
  Permutation (sort_items items) items.
Proof.
  induction items as [| kv rest IH]; cbn; [reflexivity |].
  rewrite insert_item_permutation, IH. reflexivity.
Qed.

Lemma insert_item_sorted (kv : string * V) items :
  StronglySorted key_le items -> StronglySorted key_le (insert_item kv items).
Proof.
  induction 1 as [| kv' rest Hsorted IH Hall]; cbn.
  - constructor; constructor.
  - destruct (fst kv <=? fst kv')%string eqn:Hle.
    + constructor; [constructor; assumption |].
      constructor; [exact Hle |].
      rewrite Forall_forall in *. intros x Hx.
      unfold key_le. apply string_leb_trans with (fst kv'); [exact Hle | exact (Hall x Hx)].
    + constructor; [exact IH |].
      rewrite Forall_forall in *. intros x Hx.
      apply (Permutation_in _ (insert_item_permutation kv rest)) in Hx.
      destruct Hx as [<- | Hx]; [| exact (Hall x Hx)].
      unfold key_le. destruct (String.leb_total (fst kv) (fst kv')) as [H | H];
        [rewrite H in Hle; discriminate | exact H].
Qed.

Lemma sort_items_sorted (items : list (string * V)) :
  StronglySorted key_le (sort_items items).
Proof.
  induction items as [| kv rest IH]; cbn; [constructor |].
  apply insert_item_sorted, IH.
Qed.

(** Two lists in key order with the same items, each key held once, are
    the same list. *)
Lemma sorted_items_unique (l1 : list (string * V)) :
  forall l2,
    StronglySorted key_le l1 -> StronglySorted key_le l2 ->
    Permutation l1 l2 -> NoDup (map fst l1) -> l1 = l2.
Proof.
  induction l1 as [| a l1 IH]; intros l2 Hs1 Hs2 Hperm Hnodup.
  - apply Permutation_nil in Hperm. subst. reflexivity.
  - destruct l2 as [| b l2].
    { apply Permutation_sym, Permutation_nil in Hperm. discriminate. }
    inversion Hs1 as [| ? ? Hs1' Hall1]; subst.
    inversion Hs2 as [| ? ? Hs2' Hall2]; subst.
    inversion Hnodup as [| ? ? Hnotin Hnodup']; subst.
    rewrite Forall_forall in Hall1, Hall2.
    assert (Hab : a = b).
    { assert (Ha : In a (b :: l2)) by (apply (Permutation_in _ Hperm); left; reflexivity).
      assert (Hb : In b (a :: l1))
        by (apply (Permutation_in _ (Permutation_sym Hperm)); left; reflexivity).
      destruct Ha as [Ha | Ha]; [symmetry; exact Ha |].
      destruct Hb as [Hb | Hb]; [exact Hb |].
      exfalso. apply Hnotin.
      assert (Hkey : fst a = fst b)
        by (apply String.leb_antisym; [exact (Hall1 b Hb) | exact (Hall2 a Ha)]).
      rewrite Hkey. apply in_map. exact Hb. }
    subst b. f_equal.
    apply IH; try assumption.
    exact (Permutation_cons_inv Hperm).
Qed.

Lemma sort_items_unique (l1 l2 : list (string * V)) :
  Permutation l1 l2 -> NoDup (map fst l1) -> sort_items l1 = sort_items l2.
Proof.
  intros Hperm Hnodup.
  apply sorted_items_unique; try apply sort_items_sorted.
  - rewrite !sort_items_permutation. exact Hperm.
  - apply (Permutation_NoDup (l := map fst l1)); [| exact Hnodup].
    apply Permutation_map, Permutation_sym, sort_items_permutation.
Qed.

Lemma dict_lookup_In (k : string) (items : list (string * V)) v :
  dict_lookup k items = Some v -> In (k, v) items.
Proof.
  induction items as [| [k' v'] rest IH]; cbn; [discriminate |].
  destruct (String.eqb_spec k' k) as [-> | _].
  - intros H. injection H as ->. left. reflexivity.
  - intros H. right. exact (IH H).
Qed.
End KeyOrder.

Lemma distinct_keysb_NoDup ks : distinct_keysb ks = true -> NoDup ks.
Proof.
  induction ks as [| k rest IH]; cbn; [constructor |].
  intros H. apply andb_true_iff in H. destruct H as [Hnotin Hrest].
  constructor; [| exact (IH Hrest)].
  intros Hin. apply negb_true_iff in Hnotin.
  assert (Hex : existsb (String.eqb k) rest = true).
  { apply existsb_exists. exists k. split; [exact Hin | apply String.eqb_refl]. }
  rewrite Hex in Hnotin. discriminate.
Qed.

Lemma well_formed_dict items :
  well_formed (JDict items) = true ->
  NoDup (map fst items) /\ Forall (fun kv => well_formed (snd kv) = true) items.
Proof.
  cbn. intros H. apply andb_true_iff in H. destruct H as [Hkeys Hvals].
  split; [exact (distinct_keysb_NoDup _ Hkeys) |].
  apply Forall_forall. exact (proj1 (forallb_forall _ _) Hvals).
Qed.

Lemma well_formed_list xs :
  well_formed (JList xs) = true -> Forall (fun x => well_formed x = true) xs.
Proof.
  cbn. intros H. apply Forall_forall. exact (proj1 (forallb_forall _ _) H).
Qed.

(** Induction on a JSON value with the hypothesis at every element of a
    list and at every value of a mapping. *)
Lemma json_nested_ind (P : json -> Prop) :
  P JNull ->
  (forall b, P (JBool b)) ->
  (forall n, P (JInt n)) ->
  (forall s, P (JStr s)) ->
  (forall xs, Forall P xs -> P (JList xs)) ->
  (forall items, Forall (fun kv => P (snd kv)) items -> P (JDict items)) ->
  forall j, P j.
Proof.
  intros Hnull Hbool Hint Hstr Hlist Hdict.
  fix IH 1. intros [| b | n | s | xs | items].
  - exact Hnull.
  - apply Hbool.
  - apply Hint.
  - apply Hstr.
  - apply Hlist. induction xs as [| x xs IHxs]; constructor; [apply IH | exact IHxs].
  - apply Hdict. induction items as [| [k v] items IHitems]; constructor;
      [apply IH | exact IHitems].
Qed.

Lemma same_value_list xs : forall ys,
  same_value (JList xs) (JList ys) = true ->
  Forall2 (fun x y => same_value x y = true) xs ys.
Proof.
  induction xs as [| x xs IH]; intros [| y ys] H; try discriminate H.
  - constructor.
  - change (same_value x y && same_value (JList xs) (JList ys) = true) in H.
    apply andb_true_iff in H. destruct H as [Hxy Hrest].
    constructor; [exact Hxy | exact (IH ys Hrest)].
Qed.

Lemma same_value_dict d1 d2 :
  same_value (JDict d1) (JDict d2) = true ->
  List.length d1 = List.length d2 /\
  Forall (fun kv => exists v', dict_lookup (fst kv) d2 = Some v' /\
                               same_value (snd kv) v' = true) d1.
Proof.
  cbn [same_value]. intros H. apply andb_true_iff in H. destruct H as [Hlen Hall].
  split; [apply Nat.eqb_eq; exact Hlen |].
  clear Hlen. induction d1 as [| kv d1 IH]; [constructor |].
  apply andb_true_iff in Hall. destruct Hall as [Hkv Hrest].
  constructor; [| exact (IH Hrest)].
  destruct (dict_lookup (fst kv) d2) as [v' |]; [| discriminate].
  exists v'. split; [reflexivity | exact Hkv].
Qed.

Lemma dumps_dict_sorted enc items :
  dumps enc true (JDict items) =
  "{" ++ join ", " (map (fun kv => enc (fst kv) ++ ": " ++ snd kv)
                        (sort_items (map (fun kv => (fst kv, dumps enc true (snd kv))) items)))
      ++ "}".
Proof. reflexivity. Qed.

Lemma dumps_list enc sort_keys xs :
  dumps enc sort_keys (JList xs) = "[" ++ join ", " (map (dumps enc sort_keys) xs) ++ "]".
Proof. reflexivity. Qed.

(** The canonical text does not depend on the insertion order of keys. *)
Lemma dumps_sorted_same_value enc : forall a b,
  well_formed a = true -> well_formed b = true -> same_value a b = true ->
  dumps enc true a = dumps enc true b.
Proof.
  induction a as [| x | x | x | xs IHxs | d1 IHd1] using json_nested_ind;
    intros [| y | y | y | ys | d2] Hwa Hwb Hsame; try discriminate Hsame.
  - reflexivity.
  - cbn in Hsame. apply Bool.eqb_prop in Hsame. subst. reflexivity.
  - cbn in Hsame. apply Z.eqb_eq in Hsame. subst. reflexivity.
  - cbn in Hsame. apply String.eqb_eq in Hsame. subst. reflexivity.
  - rewrite !dumps_list. do 3 f_equal.
    apply well_formed_list in Hwa. apply well_formed_list in Hwb.
    apply same_value_list in Hsame.
    revert IHxs Hwa Hwb.
    induction Hsame as [| x y xs ys Hxy Hrest IH]; intros IHxs Hwa Hwb; [reflexivity |].
    inversion IHxs; subst. inversion Hwa; subst. inversion Hwb; subst.
    cbn [map]. f_equal; auto.
  - rewrite !dumps_dict_sorted. do 4 f_equal.
    destruct (well_formed_dict _ Hwa) as [Hnodup1 Hvals1].
    destruct (well_formed_dict _ Hwb) as [Hnodup2 Hvals2].
    destruct (same_value_dict _ _ Hsame) as [Hlen Hall].
    rewrite Forall_forall in IHd1, Hvals1, Hvals2, Hall.
    assert (Hkeys : NoDup (map fst (map (fun kv => (fst kv, dumps enc true (snd kv))) d1))).
    { rewrite map_map. cbn [fst]. exact Hnodup1. }
    apply sort_items_unique; [| exact Hkeys].
    apply NoDup_Permutation_bis.
    + exact (NoDup_map_inv _ _ Hkeys).
    + rewrite !length_map, Hlen. apply Nat.le_refl.
    + intros x Hx. apply in_map_iff in Hx. destruct Hx as (kv & <- & Hkv).
      destruct (Hall kv Hkv) as (v' & Hlookup & Hv).
      apply dict_lookup_In in Hlookup.
      rewrite (IHd1 kv Hkv v' (Hvals1 kv Hkv) (Hvals2 _ Hlookup) Hv).
      apply (in_map (fun kv => (fst kv, dumps enc true (snd kv))) _ _ Hlookup).
Qed.

Lemma same_value_truthy a b :
  same_value a b = true -> truthy a = truthy b.
Proof.
  destruct a as [| x | x | x | xs | d1], b as [| y | y | y | ys | d2];
    intros H; try discriminate H; cbn in H |- *.
  - reflexivity.
  - apply Bool.eqb_prop in H. exact H.
  - apply Z.eqb_eq in H. subst. reflexivity.
  - apply String.eqb_eq in H. subst. reflexivity.
  - destruct xs, ys; try discriminate H; reflexivity.
  - apply andb_true_iff in H. destruct H as [H _]. apply Nat.eqb_eq in H.
    destruct d1, d2; try discriminate H; reflexivity.
Qed.

Lemma variables_json_same_value enc v1 v2 :
  well_formed v1 = true -> well_formed v2 = true -> same_value v1 v2 = true ->
  dumps enc true (or_empty_dict v1) = dumps enc true (or_empty_dict v2).
Proof.
  intros Hw1 Hw2 Hsame. unfold or_empty_dict.
  rewrite <- (same_value_truthy _ _ Hsame).
  destruct (truthy v1); [| reflexivity].
  exact (dumps_sorted_same_value enc v1 v2 Hw1 Hw2 Hsame).
Qed.

Example canonical_text_of_two_orders :
  dumps quote_encoder true (JDict [("b", JInt 2); ("a", JInt 1)]) =
  dumps quote_encoder true (JDict [("a", JInt 1); ("b", JInt 2)]) /\
  dumps quote_encoder false (JDict [("b", JInt 2); ("a", JInt 1)]) <>
  dumps quote_encoder false (JDict [("a", JInt 1); ("b", JInt 2)]).
Proof. split; [reflexivity | discriminate]. Qed.

(** C4: for every document and every two variables mappings that are equal
    as values and differ only in the insertion order of their keys (at
    any depth), [_cache_key] gives the same key, and the two mappings use
    the same entry of the result cache: once a cached [execute] with the
    one has returned [V], a cached [execute] with the other returns [V]
    from the table, without a request. *)
Theorem cache_key_ignores_insertion_order
    server enc md5 loads self query d1 d2 :
  well_formed (JDict d1) = true ->
  well_formed (JDict d2) = true ->
  same_value (JDict d1) (JDict d2) = true ->
  _cache_key enc md5 self query (JDict d1) = _cache_key enc md5 self query (JDict d2) /\
  (forall w V w1,
      cached_execute server enc loads self query (JDict d1) true w = (Returns V, w1) ->
      exists w2,
        cached_execute server enc loads self query (JDict d2) true w1 = (Returns V, w2) /\
        posted w2 = posted w1).
Proof.
  intros Hw1 Hw2 Hsame.
  pose proof (variables_json_same_value enc _ _ Hw1 Hw2 Hsame) as Htext.
  split.
  - unfold _cache_key. rewrite Htext. reflexivity.
  - intros w V w1 Hfirst.
    exact (cached_execute_hit_after server enc loads self query _ _ w V w1 Htext Hfirst).
Qed.

Lemma cache_key_ignores_insertion_order_witness :
  (well_formed (JDict [("a", JInt 1); ("b", JInt 2)]) = true /\
   well_formed (JDict [("b", JInt 2); ("a", JInt 1)]) = true /\
   same_value (JDict [("a", JInt 1); ("b", JInt 2)])
              (JDict [("b", JInt 2); ("a", JInt 1)]) = true) /\
  _cache_key quote_encoder plain_digest small_cache_client "{ books { id } }"
             (JDict [("a", JInt 1); ("b", JInt 2)])
  = _cache_key quote_encoder plain_digest small_cache_client "{ books { id } }"
               (JDict [("b", JInt 2); ("a", JInt 1)]).
Proof.
  split; [repeat split; reflexivity |].
  apply (proj1 (cache_key_ignores_insertion_order
                  (endpoint_answering books_answer) quote_encoder plain_digest demo_loads
                  small_cache_client "{ books { id } }"
                  [("a", JInt 1); ("b", JInt 2)] [("b", JInt 2); ("a", JInt 1)]
                  eq_refl eq_refl eq_refl)).
Defined.

(** * Further properties of the clients *)

(** ** The retry loop, for every number of attempts *)

Lemma attempt_once_posts server self query variables w o w' :
  attempt_once server self query variables w = (o, w') ->
  w' = after_post (request_for (robust_client self) query variables) w.
Proof.
  unfold attempt_once, bind, lift, raise, ret. rewrite execute_run.
  destruct (server _ _) as [res | e]; [| intros H; injection H as _ <-; reflexivity].
  destruct (py_contains "errors" res) as [[|] | e];
    [| intros H; injection H as _ <-; reflexivity
     | intros H; injection H as _ <-; reflexivity].
  destruct (py_getitem res "errors"); intros H; injection H as _ <-; reflexivity.
Qed.

Lemma attempt_once_success server self query variables w result :
  server (posted w) (request_for (robust_client self) query variables) = Returns result ->
  py_contains "errors" result = Returns false ->
  attempt_once server self query variables w =
  (Returns result, after_post (request_for (robust_client self) query variables) w).
Proof.
  intros Hs Hc. unfold attempt_once, bind, lift, ret.
  rewrite execute_run, Hs, Hc. reflexivity.
Qed.

Lemma repeat_shift {A : Type} (x : A) n l :
  (repeat x n ++ x :: l)%list = x :: (repeat x n ++ l)%list.
Proof.
  induction n as [| n IH]; cbn; [reflexivity |]. rewrite IH. reflexivity.
Qed.

Lemma range_length n : List.length (range n) = Z.to_nat n.
Proof. unfold range. rewrite length_map, length_seq. reflexivity. Qed.

Lemma range_nonpositive n : (n <= 0)%Z -> range n = [].
Proof.
  intros Hn. unfold range. replace (Z.to_nat n) with 0%nat by lia. reflexivity.
Qed.

(** Whatever the endpoint does, the loop posts the same request once per
    attempt it makes, and makes at most one attempt per element. *)
Lemma retry_loop_posts server self query variables attempts :
  forall w o w',
    retry_loop server self query variables attempts w = (o, w') ->
    exists j,
      (j <= List.length attempts)%nat /\
      (attempts <> [] -> 1 <= j)%nat /\
      posted w' =
        (repeat (request_for (robust_client self) query variables) j ++ posted w)%list.
Proof.
  induction attempts as [| attempt rest IH]; intros w o w' H.
  - cbn in H. injection H as _ <-. exists 0%nat. cbn. repeat split; [lia | congruence].
  - cbn [retry_loop] in H.
    destruct (attempt_once server self query variables w) as [[res | e] w1] eqn:E;
      pose proof (attempt_once_posts _ _ _ _ _ _ _ E) as ->.
    + injection H as _ <-. exists 1%nat. cbn. repeat split; lia.
    + destruct (is_request_exception e);
        [| injection H as _ <-; exists 1%nat; cbn; repeat split; lia].
      destruct (attempt =? max_retries self - 1)%Z;
        [injection H as _ <-; exists 1%nat; cbn; repeat split; lia |].
      unfold bind, print in H.
      destruct (IH _ _ _ H) as (j & Hj & _ & Hposted).
      exists (S j). cbn [List.length]. repeat split; [lia | lia |].
      rewrite Hposted. cbn [posted after_post]. rewrite repeat_shift. reflexivity.
Qed.

(** X1: whatever the endpoint answers, [execute_with_retry] posts the same
    request at most [max_retries] times, at least once when [max_retries]
    is positive, and posts nothing else. *)
Theorem retry_posts_at_most_max_retries server self query variables w o w' :
  execute_with_retry server self query variables w = (o, w') ->
  exists j,
    (j <= Z.to_nat (max_retries self))%nat /\
    ((0 < max_retries self)%Z -> (1 <= j)%nat) /\
    posted w' =
      (repeat (request_for (robust_client self) query variables) j ++ posted w)%list.
Proof.
  unfold execute_with_retry. intros H.
  destruct (retry_loop_posts _ _ _ _ _ _ _ _ H) as (j & Hj & Hone & Hposted).
  exists j. rewrite range_length in Hj. repeat split; [exact Hj | | exact Hposted].
  intros Hpos. apply Hone. intros Hnil.
  apply (f_equal (@List.length Z)) in Hnil. rewrite range_length in Hnil. cbn in Hnil. lia.
Qed.

Lemma retry_posts_at_most_max_retries_witness :
  exists j,
    (j <= Z.to_nat 4)%nat /\
    ((0 < 4)%Z -> (1 <= j)%nat) /\
    posted (snd (execute_with_retry (flaky_endpoint 2 books_answer)
                   (RobustGraphQLClient_init "http://h/graphql" (Some 4%Z))
                   "{ books { id } }" JNull fresh_world)) =
      (repeat (request_for (SimpleGraphQLClient_init "http://h/graphql" None)
                           "{ books { id } }" JNull) j ++ [])%list.
Proof.
  apply (retry_posts_at_most_max_retries (flaky_endpoint 2 books_answer)
           (RobustGraphQLClient_init "http://h/graphql" (Some 4%Z))
           "{ books { id } }" JNull fresh_world
           (fst (execute_with_retry (flaky_endpoint 2 books_answer)
                   (RobustGraphQLClient_init "http://h/graphql" (Some 4%Z))
                   "{ books { id } }" JNull fresh_world))).
  vm_compute. reflexivity.
Defined.

(** The loop from attempt number [i] on, with [S m] attempts left, when
    every request fails with a transport error. *)
Lemma retry_loop_all_fail server self query variables N :
  max_retries self = Z.of_nat N ->
  (forall hist x, exists cause, server hist x = Raises (RequestException cause)) ->
  forall m i w,
    (i + S m = N)%nat ->
    exists w',
      retry_loop server self query variables (map Z.of_nat (seq i (S m))) w =
        (server (repeat (request_for (robust_client self) query variables) m ++ posted w)%list
                (request_for (robust_client self) query variables), w') /\
      posted w' =
        (repeat (request_for (robust_client self) query variables) (S m) ++ posted w)%list /\
      List.length (stdout w') = (m + List.length (stdout w))%nat.
Proof.
  intros HN Hdown. set (r := request_for (robust_client self) query variables).
  induction m as [| m IH]; intros i w Hi.
  - destruct (Hdown (posted w) r) as [c Hc].
    exists (after_post r w). cbn [seq map repeat app].
    rewrite (retry_loop_last server self query variables _ _ w c Hc)
      by (apply Z.eqb_eq; lia).
    rewrite Hc. repeat split.
  - destruct (Hdown (posted w) r) as [c Hc].
    change (seq i (S (S m))) with (i :: seq (S i) (S m)). cbn [map].
    rewrite (retry_loop_again server self query variables _ _ w c Hc)
      by (apply Z.eqb_neq; lia).
    destruct (IH (S i) (after_print (retry_line self (Z.of_nat i)) (after_post r w)))
      as (w' & Hrun & Hposted & Hout); [lia |].
    exists w'. fold r. unfold retry_line in Hrun. rewrite Hrun.
    cbn [posted after_print after_post stdout List.length] in *.
    rewrite repeat_shift in Hrun, Hposted.
    repeat split.
    + cbn [repeat app]. rewrite repeat_shift. reflexivity.
    + rewrite Hposted. reflexivity.
    + rewrite Hout. lia.
Qed.

(** X2: for every positive [max_retries], an endpoint that fails every
    request with a transport error is posted to exactly [max_retries]
    times; the call raises the transport error of the last request, and
    has printed one line less than it made attempts. *)
Theorem retry_exhausted_for_every_bound server self query variables w :
  (0 < max_retries self)%Z ->
  (forall hist x, exists cause, server hist x = Raises (RequestException cause)) ->
  exists cause w',
    execute_with_retry server self query variables w = (Raises (RequestException cause), w') /\
    server (repeat (request_for (robust_client self) query variables)
                   (Z.to_nat (max_retries self) - 1) ++ posted w)%list
           (request_for (robust_client self) query variables)
      = Raises (RequestException cause) /\
    posted w' =
      (repeat (request_for (robust_client self) query variables)
              (Z.to_nat (max_retries self)) ++ posted w)%list /\
    List.length (stdout w') = (Z.to_nat (max_retries self) - 1 + List.length (stdout w))%nat.
Proof.
  intros Hpos Hdown.
  set (r := request_for (robust_client self) query variables).
  destruct (Z.to_nat (max_retries self)) as [| m] eqn:HN; [lia |].
  destruct (retry_loop_all_fail server self query variables (S m)
              ltac:(lia) Hdown m 0%nat w eq_refl) as (w' & Hrun & Hposted & Hout).
  destruct (Hdown (repeat r m ++ posted w)%list r) as [c Hc].
  exists c, w'. fold r in Hrun, Hposted.
  replace (S m - 1)%nat with m by lia.
  repeat split; [| exact Hc | exact Hposted | exact Hout].
  unfold execute_with_retry, range. rewrite HN, Hrun, Hc. reflexivity.
Qed.

Lemma retry_exhausted_for_every_bound_witness :
  exists cause w',
    execute_with_retry endpoint_down (RobustGraphQLClient_init "http://h/graphql" (Some 5%Z))
                       "{ books { id } }" JNull fresh_world
      = (Raises (RequestException cause), w') /\
    endpoint_down
      (repeat (request_for (SimpleGraphQLClient_init "http://h/graphql" None)
                           "{ books { id } }" JNull) (Z.to_nat 5 - 1) ++ [])%list
      (request_for (SimpleGraphQLClient_init "http://h/graphql" None) "{ books { id } }" JNull)
      = Raises (RequestException cause) /\
    posted w' =
      (repeat (request_for (SimpleGraphQLClient_init "http://h/graphql" None)
                           "{ books { id } }" JNull) (Z.to_nat 5) ++ [])%list /\
    List.length (stdout w') = (Z.to_nat 5 - 1 + 0)%nat.
Proof.
  apply (retry_exhausted_for_every_bound endpoint_down
           (RobustGraphQLClient_init "http://h/graphql" (Some 5%Z))
           "{ books { id } }" JNull fresh_world).
  - reflexivity.
  - intros hist x. eexists. reflexivity.
Defined.

Lemma retry_loop_recovers server self query variables N result :
  max_retries self = Z.of_nat N ->
  py_contains "errors" result = Returns false ->
  forall k i m w,
    (i + m = N)%nat -> (k < m)%nat ->
    (forall j, (j < k)%nat ->
               exists cause,
                 server (repeat (request_for (robust_client self) query variables) j
                           ++ posted w)%list
                        (request_for (robust_client self) query variables)
                   = Raises (RequestException cause)) ->
    server (repeat (request_for (robust_client self) query variables) k ++ posted w)%list
           (request_for (robust_client self) query variables) = Returns result ->
    exists w',
      retry_loop server self query variables (map Z.of_nat (seq i m)) w
        = (Returns result, w') /\
      posted w' =
        (repeat (request_for (robust_client self) query variables) (S k) ++ posted w)%list /\
      List.length (stdout w') = (k + List.length (stdout w))%nat.
Proof.
  intros HN Hclean. set (r := request_for (robust_client self) query variables).
  induction k as [| k IH]; intros i m w Hi Hk Hfail Hok.
  - destruct m as [| m]; [lia |]. cbn [seq map retry_loop repeat app] in *.
    rewrite (attempt_once_success server self query variables w result Hok Hclean).
    exists (after_post r w). repeat split.
  - destruct m as [| m]; [lia |]. cbn [seq map].
    destruct (Hfail 0%nat ltac:(lia)) as [c Hc]. cbn [repeat app] in Hc.
    rewrite (retry_loop_again server self query variables _ _ w c Hc)
      by (apply Z.eqb_neq; lia).
    destruct (IH (S i) m (after_print (retry_line self (Z.of_nat i)) (after_post r w)))
      as (w' & Hrun & Hposted & Hout).
    + lia.
    + lia.
    + intros j Hj. cbn [posted after_print after_post]. rewrite repeat_shift.
      exact (Hfail (S j) ltac:(lia)).
    + cbn [posted after_print after_post]. rewrite repeat_shift. exact Hok.
    + exists w'. unfold retry_line in Hrun. fold r. rewrite Hrun.
      cbn [posted after_print after_post stdout List.length] in *.
      rewrite repeat_shift in Hposted.
      repeat split; [exact Hposted | rewrite Hout; lia].
Qed.

(** X3: when the first [k] requests fail with a transport error, [k] is
    less than [max_retries], and the next request is answered with a value
    in which [in] finds no [errors], [execute_with_retry] returns that
    value after [k + 1] requests and [k] printed lines. *)
Theorem retry_recovers_after_transport_errors
    server self query variables w k result :
  (Z.of_nat k < max_retries self)%Z ->
  (forall j, (j < k)%nat ->
             exists cause,
               server (repeat (request_for (robust_client self) query variables) j
                         ++ posted w)%list
                      (request_for (robust_client self) query variables)
                 = Raises (RequestException cause)) ->
  server (repeat (request_for (robust_client self) query variables) k ++ posted w)%list
         (request_for (robust_client self) query variables) = Returns result ->
  py_contains "errors" result = Returns false ->
  exists w',
    execute_with_retry server self query variables w = (Returns result, w') /\
    posted w' =
      (repeat (request_for (robust_client self) query variables) (S k) ++ posted w)%list /\
    List.length (stdout w') = (k + List.length (stdout w))%nat.
Proof.
  intros Hk Hfail Hok Hclean.
  unfold execute_with_retry, range.
  apply (retry_loop_recovers server self query variables
           (Z.to_nat (max_retries self)) result ltac:(lia) Hclean
           k 0%nat (Z.to_nat (max_retries self)) w eq_refl ltac:(lia) Hfail Hok).
Qed.

Lemma retry_recovers_after_transport_errors_witness :
  exists w',
    execute_with_retry (flaky_endpoint 2 books_answer)
                       (RobustGraphQLClient_init "http://h/graphql" None)
                       "{ books { id } }" JNull fresh_world = (Returns books_answer, w') /\
    posted w' =
      (repeat (request_for (SimpleGraphQLClient_init "http://h/graphql" None)
                           "{ books { id } }" JNull) 3 ++ [])%list /\
    List.length (stdout w') = (2 + 0)%nat.
Proof.
  apply (retry_recovers_after_transport_errors (flaky_endpoint 2 books_answer)
           (RobustGraphQLClient_init "http://h/graphql" None)
           "{ books { id } }" JNull fresh_world 2 books_answer).
  - reflexivity.
  - intros j Hj. exists "timed out".
    destruct j as [| [| j]]; [reflexivity | reflexivity | lia].
  - reflexivity.
  - reflexivity.
Defined.

(** X4: with [max_retries] zero or negative, [execute_with_retry] posts
    nothing, prints nothing and raises the plain exception "Max retries
    exceeded", whatever the endpoint would answer. *)
Theorem retry_without_attempts server self query variables w :
  (max_retries self <= 0)%Z ->
  execute_with_retry server self query variables w =
  (Raises (PlainException "Max retries exceeded"), w).
Proof.
  intros Hn. unfold execute_with_retry. rewrite (range_nonpositive _ Hn). reflexivity.
Qed.

Lemma retry_without_attempts_witness :
  execute_with_retry (endpoint_answering books_answer)
                     (RobustGraphQLClient_init "http://h/graphql" (Some (-2)%Z))
                     "{ books { id } }" JNull fresh_world =
  (Raises (PlainException "Max retries exceeded"), fresh_world).
Proof.
  apply (retry_without_attempts (endpoint_answering books_answer)
           (RobustGraphQLClient_init "http://h/graphql" (Some (-2)%Z))
           "{ books { id } }" JNull fresh_world).
  cbn. lia.
Defined.

(** X5: an exception of the endpoint that is not a [RequestException] is
    not retried: it leaves [execute_with_retry] after the first request,
    and no line is printed. *)
Theorem retry_lets_other_exceptions_through server self query variables w e :
  (0 < max_retries self)%Z ->
  server (posted w) (request_for (robust_client self) query variables) = Raises e ->
  is_request_exception e = false ->
  execute_with_retry server self query variables w =
  (Raises e, after_post (request_for (robust_client self) query variables) w).
Proof.
  intros Hn Hs He. unfold execute_with_retry.
  destruct (range_positive _ Hn) as [rest ->].
  cbn [retry_loop].
  rewrite (attempt_once_transport_error _ _ _ _ _ _ Hs), He. reflexivity.
Qed.

Lemma retry_lets_other_exceptions_through_witness :
  execute_with_retry (endpoint_raising JSONDecodeError)
                     (RobustGraphQLClient_init "http://h/graphql" None)
                     "{ books { id } }" JNull fresh_world =
  (Raises JSONDecodeError,
   after_post (request_for (SimpleGraphQLClient_init "http://h/graphql" None)
                           "{ books { id } }" JNull) fresh_world).
Proof.
  apply (retry_lets_other_exceptions_through (endpoint_raising JSONDecodeError)
           (RobustGraphQLClient_init "http://h/graphql" None)
           "{ books { id } }" JNull fresh_world JSONDecodeError);
    reflexivity.
Defined.

(** X6: a response body that is [null], a boolean or a number makes the
    test ["errors" in result] raise [TypeError]; the call raises it after
    the one request, without retry. *)
Theorem retry_scalar_body_raises_type_error server self query variables w result :
  (0 < max_retries self)%Z ->
  server (posted w) (request_for (robust_client self) query variables) = Returns result ->
  (result = JNull \/ (exists b, result = JBool b) \/ (exists n, result = JInt n)) ->
  execute_with_retry server self query variables w =
  (Raises TypeError, after_post (request_for (robust_client self) query variables) w).
Proof.
  intros Hn Hs Hshape. unfold execute_with_retry.
  destruct (range_positive _ Hn) as [rest ->].
  cbn [retry_loop]. unfold attempt_once, bind, lift.
  rewrite execute_run, Hs.
  destruct Hshape as [-> | [[b ->] | [n ->]]]; reflexivity.
Qed.

Lemma retry_scalar_body_raises_type_error_witness :
  execute_with_retry (endpoint_answering JNull)
                     (RobustGraphQLClient_init "http://h/graphql" None)
                     "{ books { id } }" JNull fresh_world =
  (Raises TypeError,
   after_post (request_for (SimpleGraphQLClient_init "http://h/graphql" None)
                           "{ books { id } }" JNull) fresh_world).
Proof.
  apply (retry_scalar_body_raises_type_error (endpoint_answering JNull)
           (RobustGraphQLClient_init "http://h/graphql" None)
           "{ books { id } }" JNull fresh_world JNull);
    [reflexivity | reflexivity | left; reflexivity].
Defined.

(** ** The typed client *)

Lemma get_all_books_run server self w :
  get_all_books server self w =
  (match server (posted w) (request_for (typed_client self) get_all_books_query JNull) with
   | Returns result =>
       data <~ py_get result "data" (JDict []) ;;
       books_data <~ py_get data "books" (JList []) ;;
       elements <~ py_iter books_data ;;
       books_loop elements []
   | Raises e => Raises e
   end,
   after_post (request_for (typed_client self) get_all_books_query JNull) w).
Proof.
  unfold get_all_books, bind, lift. rewrite execute_run.
  destruct (server _ _); reflexivity.
Qed.

Lemma get_book_by_id_run server self book_id w :
  get_book_by_id server self book_id w =
  (match server (posted w)
                (request_for (typed_client self) get_book_by_id_query
                             (JDict [("bookId", JInt book_id)])) with
   | Returns result =>
       data <~ py_get result "data" (JDict []) ;;
       book_data <~ py_get data "book" JNull ;;
       optional_book book_data
   | Raises e => Raises e
   end,
   after_post (request_for (typed_client self) get_book_by_id_query
                           (JDict [("bookId", JInt book_id)])) w).
Proof.
  unfold get_book_by_id, bind, lift. rewrite execute_run.
  destruct (server _ _); reflexivity.
Qed.

Lemma create_book_run server self title author_id genre published_year w :
  create_book server self title author_id genre published_year w =
  (match server (posted w)
                (request_for (typed_client self) create_book_mutation
                   (JDict [("title", JStr title); ("authorId", JInt author_id);
                           ("genre", JStr genre); ("publishedYear", JInt published_year)])) with
   | Returns result =>
       data <~ py_get result "data" (JDict []) ;;
       created <~ py_get data "createBook" (JDict []) ;;
       book_data <~ py_get created "book" JNull ;;
       optional_book book_data
   | Raises e => Raises e
   end,
   after_post (request_for (typed_client self) create_book_mutation
                 (JDict [("title", JStr title); ("authorId", JInt author_id);
                         ("genre", JStr genre); ("publishedYear", JInt published_year)])) w).
Proof.
  unfold create_book, bind, lift. rewrite execute_run.
  destruct (server _ _); reflexivity.
Qed.

(** X7: [get_book_by_id] returns [None], and raises nothing, when the
    envelope has no [data], or [data] has no [book], or [book] is [null]
    (or any other falsy value); the one request it posts carries the
    variables [{"bookId": book_id}], also for [book_id = 0]. *)
Theorem get_book_by_id_absent_book server self book_id w envelope :
  server (posted w)
         (request_for (typed_client self) get_book_by_id_query
                      (JDict [("bookId", JInt book_id)]))
    = Returns (JDict envelope) ->
  (dict_lookup "data" envelope = None \/
   exists data,
     dict_lookup "data" envelope = Some (JDict data) /\
     (dict_lookup "book" data = None \/
      exists book_data, dict_lookup "book" data = Some book_data /\
                        truthy book_data = false)) ->
  exists w',
    get_book_by_id server self book_id w = (Returns None, w') /\
    posted w' =
      mkRequest (endpoint (typed_client self))
                (JDict [("query", JStr get_book_by_id_query);
                        ("variables", JDict [("bookId", JInt book_id)])])
                (headers (typed_client self)) :: posted w.
Proof.
  intros Hs Hshape.
  exists (after_post (request_for (typed_client self) get_book_by_id_query
                                  (JDict [("bookId", JInt book_id)])) w).
  split; [| reflexivity].
  rewrite get_book_by_id_run, Hs. f_equal.
  destruct Hshape as [Hnone | (data & Hdata & [Hnone | (b & Hb & Hfalsy)])]; cbn.
  - rewrite Hnone. reflexivity.
  - rewrite Hdata. cbn. rewrite Hnone. reflexivity.
  - rewrite Hdata. cbn. rewrite Hb. cbn. unfold optional_book. rewrite Hfalsy. reflexivity.
Qed.

Lemma get_book_by_id_absent_book_witness :
  exists w',
    get_book_by_id (endpoint_answering (JDict [("data", JDict [("book", JNull)])]))
                   (TypedGraphQLClient_init "http://h/graphql") 0 fresh_world
      = (Returns None, w') /\
    posted w' =
      mkRequest "http://h/graphql"
                (JDict [("query", JStr get_book_by_id_query);
                        ("variables", JDict [("bookId", JInt 0)])])
                [] :: posted fresh_world.
Proof.
  apply (get_book_by_id_absent_book
           (endpoint_answering (JDict [("data", JDict [("book", JNull)])]))
           (TypedGraphQLClient_init "http://h/graphql") 0 fresh_world
           [("data", JDict [("book", JNull)])]).
  - reflexivity.
  - right. exists [("book", JNull)]. split; [reflexivity |].
    right. exists JNull. split; reflexivity.
Defined.

(** X8: an envelope whose [data] is [null], as a server sends it beside
    its errors, makes each of [get_all_books], [get_book_by_id] and
    [create_book] raise [AttributeError]: [result.get("data", {})] gives
    [None], not the default. *)
Theorem typed_client_null_data_raises server self book_id title author_id genre year w envelope :
  (forall r, server (posted w) r = Returns (JDict envelope)) ->
  dict_lookup "data" envelope = Some JNull ->
  fst (get_all_books server self w) = Raises AttributeError /\
  fst (get_book_by_id server self book_id w) = Raises AttributeError /\
  fst (create_book server self title author_id genre year w) = Raises AttributeError.
Proof.
  intros Hs Hdata.
  rewrite get_all_books_run, get_book_by_id_run, create_book_run, !Hs.
  cbn. rewrite Hdata. cbn. repeat split.
Qed.

Lemma typed_client_null_data_raises_witness :
  fst (get_all_books (endpoint_answering (JDict [("data", JNull); ("errors", JList [boom])]))
                     (TypedGraphQLClient_init "http://h/graphql") fresh_world)
    = Raises AttributeError /\
  fst (get_book_by_id (endpoint_answering (JDict [("data", JNull); ("errors", JList [boom])]))
                      (TypedGraphQLClient_init "http://h/graphql") 7 fresh_world)
    = Raises AttributeError /\
  fst (create_book (endpoint_answering (JDict [("data", JNull); ("errors", JList [boom])]))
                   (TypedGraphQLClient_init "http://h/graphql")
                   "Fahrenheit 451" 1 "Dystopian" 1953 fresh_world)
    = Raises AttributeError.
Proof.
  apply (typed_client_null_data_raises
           (endpoint_answering (JDict [("data", JNull); ("errors", JList [boom])]))
           (TypedGraphQLClient_init "http://h/graphql") 7
           "Fahrenheit 451" 1 "Dystopian" 1953 fresh_world
           [("data", JNull); ("errors", JList [boom])]).
  - intros r. reflexivity.
  - reflexivity.
Defined.

(** X9: [get_all_books] returns the empty list when the envelope has no
    [data] or [data] has no [books]; when [books] is [null] it raises
    [TypeError], where [get_book_by_id] on a [null] book returns [None]. *)
Theorem get_all_books_without_books server self w envelope :
  server (posted w) (request_for (typed_client self) get_all_books_query JNull)
    = Returns (JDict envelope) ->
  ((dict_lookup "data" envelope = None \/
    exists data, dict_lookup "data" envelope = Some (JDict data) /\
                 dict_lookup "books" data = None) ->
   fst (get_all_books server self w) = Returns []) /\
  (forall data, dict_lookup "data" envelope = Some (JDict data) ->
                dict_lookup "books" data = Some JNull ->
                fst (get_all_books server self w) = Raises TypeError).
Proof.
  intros Hs. rewrite get_all_books_run, Hs. cbn [fst]. split.
  - intros [Hnone | (data & Hdata & Hbooks)]; cbn.
    + rewrite Hnone. reflexivity.
    + rewrite Hdata. cbn. rewrite Hbooks. reflexivity.
  - intros data Hdata Hbooks. cbn. rewrite Hdata. cbn. rewrite Hbooks. reflexivity.
Qed.

Lemma get_all_books_without_books_witness :
  fst (get_all_books (endpoint_answering (JDict [("data", JDict [])]))
                     (TypedGraphQLClient_init "http://h/graphql") fresh_world) = Returns [] /\
  fst (get_all_books (endpoint_answering (JDict [("data", JDict [("books", JNull)])]))
                     (TypedGraphQLClient_init "http://h/graphql") fresh_world)
    = Raises TypeError.
Proof.
  split.
  - apply (proj1 (get_all_books_without_books
                    (endpoint_answering (JDict [("data", JDict [])]))
                    (TypedGraphQLClient_init "http://h/graphql") fresh_world
                    [("data", JDict [])] eq_refl)).
    right. exists []. split; reflexivity.
  - apply (proj2 (get_all_books_without_books
                    (endpoint_answering (JDict [("data", JDict [("books", JNull)])]))
                    (TypedGraphQLClient_init "http://h/graphql") fresh_world
                    [("data", JDict [("books", JNull)])] eq_refl)
                 [("books", JNull)]); reflexivity.
Defined.

Lemma books_loop_accumulates elements :
  forall books,
    books_loop elements books =
    (mapped <~ books_loop elements [] ;; Returns (books ++ mapped)%list).
Proof.
  induction elements as [| d rest IH]; intros books; cbn.
  - rewrite app_nil_r. reflexivity.
  - destruct (book_of d) as [b | e]; cbn; [| reflexivity].
    rewrite (IH (books ++ [b])%list), (IH [b]).
    destruct (books_loop rest []) as [mapped | e]; cbn; [| reflexivity].
    rewrite <- app_assoc. reflexivity.
Qed.

Lemma books_loop_all_mapped elements books :
  Forall2 (fun d b => book_of d = Returns b) elements books ->
  books_loop elements [] = Returns books.
Proof.
  induction 1 as [| d b elements books Hd _ IH]; cbn; [reflexivity |].
  rewrite Hd. cbn. rewrite books_loop_accumulates, IH. reflexivity.
Qed.

Lemma books_loop_first_failure before bad after books e :
  Forall2 (fun d b => book_of d = Returns b) before books ->
  book_of bad = Raises e ->
  books_loop (before ++ bad :: after)%list [] = Raises e.
Proof.
  intros Hbefore Hbad.
  induction Hbefore as [| d b before books Hd _ IH]; cbn.
  - rewrite Hbad. reflexivity.
  - rewrite Hd. cbn. rewrite books_loop_accumulates, IH. reflexivity.
Qed.

(** X10: when every element of [books] maps to a book, [get_all_books]
    returns these books, one per element and in the order of the
    response, after one request without variables. *)
Theorem get_all_books_keeps_order server self w envelope data elements books :
  server (posted w) (request_for (typed_client self) get_all_books_query JNull)
    = Returns (JDict envelope) ->
  dict_lookup "data" envelope = Some (JDict data) ->
  dict_lookup "books" data = Some (JList elements) ->
  Forall2 (fun d b => book_of d = Returns b) elements books ->
  get_all_books server self w =
    (Returns books,
     after_post (mkRequest (endpoint (typed_client self))
                           (JDict [("query", JStr get_all_books_query)])
                           (headers (typed_client self))) w) /\
  List.length books = List.length elements.
Proof.
  intros Hs Hdata Hbooks Hall. split.
  - rewrite get_all_books_run, Hs. cbn. rewrite Hdata. cbn. rewrite Hbooks. cbn.
    rewrite (books_loop_all_mapped _ _ Hall). reflexivity.
  - symmetry. exact (Forall2_length Hall).
Qed.

Lemma get_all_books_keeps_order_witness :
  get_all_books
    (endpoint_answering (JDict [("data", JDict [("books", JList [book_1984; book_gatsby])])]))
    (TypedGraphQLClient_init "http://h/graphql") fresh_world =
    (Returns [mkBook (JInt 3) (JStr "1984") (JStr "Dystopian") (JInt 1949)
                     (Some (mkAuthor (JInt 3) (JStr "George Orwell") (JInt 1903) None));
              mkBook (JInt 1) (JStr "The Great Gatsby") (JStr "Fiction") (JInt 1925) None],
     after_post (mkRequest "http://h/graphql"
                           (JDict [("query", JStr get_all_books_query)]) []) fresh_world) /\
  List.length
    [mkBook (JInt 3) (JStr "1984") (JStr "Dystopian") (JInt 1949)
            (Some (mkAuthor (JInt 3) (JStr "George Orwell") (JInt 1903) None));
     mkBook (JInt 1) (JStr "The Great Gatsby") (JStr "Fiction") (JInt 1925) None]
  = List.length [book_1984; book_gatsby].
Proof.
  apply (get_all_books_keeps_order
           (endpoint_answering
              (JDict [("data", JDict [("books", JList [book_1984; book_gatsby])])]))
           (TypedGraphQLClient_init "http://h/graphql") fresh_world
           [("data", JDict [("books", JList [book_1984; book_gatsby])])]
           [("books", JList [book_1984; book_gatsby])]
           [book_1984; book_gatsby]); try reflexivity.
  constructor; [reflexivity |]. constructor; [reflexivity |]. constructor.
Defined.

(** X11: when an element of [books] does not map, [get_all_books] raises
    the exception of the first such element: the books mapped before it
    are not returned and the elements after it are not looked at. *)
Theorem get_all_books_all_or_nothing
    server self w envelope data before bad after books e :
  server (posted w) (request_for (typed_client self) get_all_books_query JNull)
    = Returns (JDict envelope) ->
  dict_lookup "data" envelope = Some (JDict data) ->
  dict_lookup "books" data = Some (JList (before ++ bad :: after)%list) ->
  Forall2 (fun d b => book_of d = Returns b) before books ->
  book_of bad = Raises e ->
  fst (get_all_books server self w) = Raises e.
Proof.
  intros Hs Hdata Hbooks Hbefore Hbad.
  rewrite get_all_books_run, Hs. cbn. rewrite Hdata. cbn. rewrite Hbooks. cbn.
  exact (books_loop_first_failure _ _ _ _ _ Hbefore Hbad).
Qed.

Lemma get_all_books_all_or_nothing_witness :
  fst (get_all_books
         (endpoint_answering
            (JDict [("data", JDict [("books",
               JList [book_gatsby; JDict [("id", JInt 9)]; book_1984])])]))
         (TypedGraphQLClient_init "http://h/graphql") fresh_world)
  = Raises (KeyError "title").
Proof.
  apply (get_all_books_all_or_nothing
           (endpoint_answering
              (JDict [("data", JDict [("books",
                 JList [book_gatsby; JDict [("id", JInt 9)]; book_1984])])]))
           (TypedGraphQLClient_init "http://h/graphql") fresh_world
           [("data", JDict [("books",
               JList [book_gatsby; JDict [("id", JInt 9)]; book_1984])])]
           [("books", JList [book_gatsby; JDict [("id", JInt 9)]; book_1984])]
           [book_gatsby] (JDict [("id", JInt 9)]) [book_1984]
           [mkBook (JInt 1) (JStr "The Great Gatsby") (JStr "Fiction") (JInt 1925) None]);
    try reflexivity.
  constructor; [reflexivity | constructor].
Defined.

(** X12: the book that a mapping gives depends only on its fields
    [author], [id], [title], [genre] and [publishedYear]: other fields,
    and the order of the fields, change nothing. *)
Theorem book_of_reads_five_fields items items' :
  (forall k, In k ["author"; "id"; "title"; "genre"; "publishedYear"] ->
             dict_lookup k items = dict_lookup k items') ->
  book_of (JDict items) = book_of (JDict items').
Proof.
  intros Hsame. unfold book_of, py_get, py_getitem.
  rewrite (Hsame "author"), (Hsame "id"), (Hsame "title"), (Hsame "genre"),
          (Hsame "publishedYear"); cbn; auto 10.
Qed.

Lemma book_of_reads_five_fields_witness :
  book_of (JDict [("id", JInt 1); ("title", JStr "The Great Gatsby");
                  ("genre", JStr "Fiction"); ("publishedYear", JInt 1925)]) =
  book_of (JDict [("pages", JInt 180); ("publishedYear", JInt 1925);
                  ("genre", JStr "Fiction"); ("title", JStr "The Great Gatsby");
                  ("id", JInt 1)]).
Proof.
  apply (book_of_reads_five_fields
           [("id", JInt 1); ("title", JStr "The Great Gatsby");
            ("genre", JStr "Fiction"); ("publishedYear", JInt 1925)]
           [("pages", JInt 180); ("publishedYear", JInt 1925);
            ("genre", JStr "Fiction"); ("title", JStr "The Great Gatsby");
            ("id", JInt 1)]).
  intros k Hk. cbn in Hk.
  destruct Hk as [<- | [<- | [<- | [<- | [<- | []]]]]]; reflexivity.
Defined.

(** X13: the author of a mapped book is [None] exactly when the value of
    [author] is falsy ([null], an empty mapping, absent); an author that is
    built has the [id], [name] and [birthYear] of the response and its
    [books] left [None]; a truthy author without one of the three keys
    fails the mapping. *)
Theorem author_of_cases author_data :
  (author_of author_data = Returns None <-> truthy author_data = false) /\
  (forall a, author_of author_data = Returns (Some a) ->
             exists i n y,
               a = mkAuthor i n y None /\
               py_getitem author_data "id" = Returns i /\
               py_getitem author_data "name" = Returns n /\
               py_getitem author_data "birthYear" = Returns y).
Proof.
  unfold author_of. destruct (truthy author_data) eqn:Ht.
  - destruct (py_getitem author_data "id") as [i | e]; cbn;
      [| split; [split; discriminate | discriminate]].
    destruct (py_getitem author_data "name") as [n | e]; cbn;
      [| split; [split; discriminate | discriminate]].
    destruct (py_getitem author_data "birthYear") as [y | e]; cbn;
      [| split; [split; discriminate | discriminate]].
    split; [split; discriminate |].
    intros a H. injection H as <-. exists i, n, y. auto.
  - split; [split; reflexivity | discriminate].
Qed.

Lemma author_of_cases_witness :
  author_of (JDict []) = Returns None /\
  exists i n y,
    mkAuthor (JInt 3) (JStr "George Orwell") (JInt 1903) None = mkAuthor i n y None /\
    py_getitem orwell "id" = Returns i /\
    py_getitem orwell "name" = Returns n /\
    py_getitem orwell "birthYear" = Returns y.
Proof.
  split.
  - apply (proj2 (proj1 (author_of_cases (JDict [])))). reflexivity.
  - apply (proj2 (author_of_cases orwell)
                 (mkAuthor (JInt 3) (JStr "George Orwell") (JInt 1903) None)).
    reflexivity.
Defined.

(** X14: [get_book_by_id] and [get_all_books] map a book the same way:
    for a truthy [book_data], the one gives [Some book] and the other
    [[book]] for the same [book], and both raise the same exception when
    [book_data] does not map. *)
Theorem single_and_list_mapping_agree
    server_one server_all self book_id w envelope_one data_one envelope_all data_all book_data :
  truthy book_data = true ->
  server_one (posted w)
             (request_for (typed_client self) get_book_by_id_query
                          (JDict [("bookId", JInt book_id)]))
    = Returns (JDict envelope_one) ->
  dict_lookup "data" envelope_one = Some (JDict data_one) ->
  dict_lookup "book" data_one = Some book_data ->
  server_all (posted w) (request_for (typed_client self) get_all_books_query JNull)
    = Returns (JDict envelope_all) ->
  dict_lookup "data" envelope_all = Some (JDict data_all) ->
  dict_lookup "books" data_all = Some (JList [book_data]) ->
  fst (get_book_by_id server_one self book_id w)
    = (book <~ book_of book_data ;; Returns (Some book)) /\
  fst (get_all_books server_all self w)
    = (book <~ book_of book_data ;; Returns [book]).
Proof.
  intros Ht Hone Hdata1 Hbook Hall Hdata2 Hbooks.
  rewrite get_book_by_id_run, get_all_books_run, Hone, Hall. cbn.
  rewrite Hdata1, Hdata2. cbn. rewrite Hbook, Hbooks. cbn.
  unfold optional_book. rewrite Ht. cbn.
  split; [reflexivity |].
  destruct (book_of book_data); reflexivity.
Qed.

Lemma single_and_list_mapping_agree_witness :
  fst (get_book_by_id (endpoint_answering (JDict [("data", JDict [("book", book_1984)])]))
                      (TypedGraphQLClient_init "http://h/graphql") 3 fresh_world)
    = (book <~ book_of book_1984 ;; Returns (Some book)) /\
  fst (get_all_books (endpoint_answering (JDict [("data", JDict [("books", JList [book_1984])])]))
                     (TypedGraphQLClient_init "http://h/graphql") fresh_world)
    = (book <~ book_of book_1984 ;; Returns [book]).
Proof.
  apply (single_and_list_mapping_agree
           (endpoint_answering (JDict [("data", JDict [("book", book_1984)])]))
           (endpoint_answering (JDict [("data", JDict [("books", JList [book_1984])])]))
           (TypedGraphQLClient_init "http://h/graphql") 3 fresh_world
           [("data", JDict [("book", book_1984)])] [("book", book_1984)]
           [("data", JDict [("books", JList [book_1984])])] [("books", JList [book_1984])]
           book_1984); reflexivity.
Defined.

(** X15: [create_book] posts one request whose variables are the four
    arguments under the names [title], [authorId], [genre] and
    [publishedYear], in this order, and returns the book mapped from
    [data.createBook.book]; when [createBook] or its [book] is absent it
    returns [None]. *)
Theorem create_book_sends_and_maps
    server self title author_id genre published_year w envelope data :
  server (posted w)
         (request_for (typed_client self) create_book_mutation
            (JDict [("title", JStr title); ("authorId", JInt author_id);
                    ("genre", JStr genre); ("publishedYear", JInt published_year)]))
    = Returns (JDict envelope) ->
  dict_lookup "data" envelope = Some (JDict data) ->
  posted (snd (create_book server self title author_id genre published_year w)) =
    mkRequest (endpoint (typed_client self))
              (JDict [("query", JStr create_book_mutation);
                      ("variables",
                       JDict [("title", JStr title); ("authorId", JInt author_id);
                              ("genre", JStr genre);
                              ("publishedYear", JInt published_year)])])
              (headers (typed_client self)) :: posted w /\
  (forall created book_data,
      dict_lookup "createBook" data = Some (JDict created) ->
      dict_lookup "book" created = Some book_data ->
      fst (create_book server self title author_id genre published_year w)
        = optional_book book_data) /\
  ((dict_lookup "createBook" data = None \/
    exists created, dict_lookup "createBook" data = Some (JDict created) /\
                    dict_lookup "book" created = None) ->
   fst (create_book server self title author_id genre published_year w) = Returns None).
Proof.
  intros Hs Hdata. rewrite create_book_run, Hs. cbn [fst snd].
  split; [reflexivity |]. split.
  - intros created book_data Hcreated Hbook.
    cbn. rewrite Hdata. cbn. rewrite Hcreated. cbn. rewrite Hbook. reflexivity.
  - intros [Hnone | (created & Hcreated & Hnone)]; cbn; rewrite Hdata; cbn.
    + rewrite Hnone. reflexivity.
    + rewrite Hcreated. cbn. rewrite Hnone. reflexivity.
Qed.

Lemma create_book_sends_and_maps_witness :
  fst (create_book
         (endpoint_answering
            (JDict [("data", JDict [("createBook", JDict [("book", book_gatsby)])])]))
         (TypedGraphQLClient_init "http://h/graphql")
         "The Great Gatsby" 1 "Fiction" 1925 fresh_world)
  = optional_book book_gatsby.
Proof.
  apply (proj1 (proj2 (create_book_sends_and_maps
           (endpoint_answering
              (JDict [("data", JDict [("createBook", JDict [("book", book_gatsby)])])]))
           (TypedGraphQLClient_init "http://h/graphql")
           "The Great Gatsby" 1 "Fiction" 1925 fresh_world
           [("data", JDict [("createBook", JDict [("book", book_gatsby)])])]
           [("createBook", JDict [("book", book_gatsby)])] eq_refl eq_refl))
           [("book", book_gatsby)] book_gatsby); reflexivity.
Defined.

(** ** The subscription stream *)

Lemma listen_control type fields rest fin :
  (type =? "data") = false ->
  listen (Text (JDict (("type", JStr type) :: fields)) :: rest) fin = listen rest fin.
Proof.
  intros Htype. cbn. rewrite Htype. reflexivity.
Qed.

(** X16: over a sequence of server messages, [data] messages and messages
    of any other type, the stream yields the values of the [data]
    messages, each one once and in the order sent, skips every other
    message, and ends as the connection ends. *)
Theorem listen_yields_data_in_order messages fin :
  forallb (fun m => negb (is_control_data m)) messages = true ->
  listen (map frame_of messages) fin = (data_values messages, ending_of fin).
Proof.
  induction messages as [| [value | type fields] rest IH]; intros Hother.
  - destruct fin; reflexivity.
  - cbn [map frame_of]. rewrite listen_data.
    cbn in Hother. rewrite (IH Hother). reflexivity.
  - cbn in Hother. apply andb_true_iff in Hother. destruct Hother as [Htype Hrest].
    apply negb_true_iff in Htype.
    cbn [map frame_of]. rewrite (listen_control _ _ _ _ Htype).
    exact (IH Hrest).
Qed.

Lemma listen_yields_data_in_order_witness :
  listen (map frame_of [Control "ka" []; Data (JInt 1); Control "error" [("payload", boom)];
                        Data (JInt 1); Data (JInt 2); Control "complete" [("id", JStr "1")]])
         ClosedError
  = (data_values [Control "ka" []; Data (JInt 1); Control "error" [("payload", boom)];
                  Data (JInt 1); Data (JInt 2); Control "complete" [("id", JStr "1")]],
     ending_of ClosedError).
Proof.
  apply (listen_yields_data_in_order
           [Control "ka" []; Data (JInt 1); Control "error" [("payload", boom)];
            Data (JInt 1); Data (JInt 2); Control "complete" [("id", JStr "1")]]
           ClosedError).
  reflexivity.
Defined.

Lemma listen_after_messages messages rest fin :
  forallb (fun m => negb (is_control_data m)) messages = true ->
  listen (map frame_of messages ++ rest)%list fin =
  ((data_values messages ++ fst (listen rest fin))%list, snd (listen rest fin)).
Proof.
  induction messages as [| [value | type fields] more IH]; intros Hother.
  - cbn. destruct (listen rest fin). reflexivity.
  - cbn [map frame_of app]. rewrite listen_data.
    cbn in Hother. rewrite (IH Hother). reflexivity.
  - cbn in Hother. apply andb_true_iff in Hother. destruct Hother as [Htype Hrest].
    apply negb_true_iff in Htype.
    cbn [map frame_of app]. rewrite (listen_control _ _ _ _ Htype).
    exact (IH Hrest).
Qed.

(** X17: a frame on which [json.loads] raises ends the stream with the
    exception that [json.loads] raised, and a frame whose JSON is not a
    mapping ends it with [AttributeError], once the values of the messages
    before it have been yielded; the frames after it are not read. *)
Theorem listen_stops_at_bad_frame messages bad rest fin :
  forallb (fun m => negb (is_control_data m)) messages = true ->
  ((exists raised, bad = Garbled raised) \/
   exists j, bad = Text j /\ (forall items, j <> JDict items)) ->
  listen (map frame_of messages ++ bad :: rest)%list fin =
  (data_values messages,
   Failed (match bad with Garbled raised => raised | Text _ => AttributeError end)).
Proof.
  intros Hother Hbad.
  rewrite (listen_after_messages _ _ _ Hother).
  destruct Hbad as [[raised ->] | (j & -> & Hj)].
  - cbn. rewrite app_nil_r. reflexivity.
  - destruct j as [| b | n | s | xs | items]; cbn; try (rewrite app_nil_r; reflexivity).
    exfalso. exact (Hj items eq_refl).
Qed.

Lemma listen_stops_at_bad_frame_witness :
  listen (map frame_of [Data (JInt 1); Control "ka" []]
          ++ Garbled UnicodeDecodeError :: [data_message (JInt 2)])%list ClosedOK =
    (data_values [Data (JInt 1); Control "ka" []], Failed UnicodeDecodeError) /\
  listen (map frame_of [Data (JInt 1); Control "ka" []]
          ++ Text (JList []) :: [data_message (JInt 2)])%list ClosedOK =
    (data_values [Data (JInt 1); Control "ka" []], Failed AttributeError).
Proof.
  split.
  - apply (listen_stops_at_bad_frame [Data (JInt 1); Control "ka" []]
             (Garbled UnicodeDecodeError) [data_message (JInt 2)] ClosedOK).
    + reflexivity.
    + left. exists UnicodeDecodeError. reflexivity.
  - apply (listen_stops_at_bad_frame [Data (JInt 1); Control "ka" []]
             (Text (JList [])) [data_message (JInt 2)] ClosedOK).
    + reflexivity.
    + right. exists (JList []). split; [reflexivity | discriminate].
Defined.

(** Where a failure of the listening loop comes from: the end of the
    connection, a [get] on a value that is not a mapping, or [json.loads]
    on one of the frames. *)
Lemma listen_failure_sources frames fin e :
  snd (listen frames fin) = Failed e ->
  e = ConnectionClosed \/ e = AttributeError \/ In (Garbled e) frames.
Proof.
  induction frames as [| [data | raised] rest IH]; cbn.
  - destruct fin; intros H; try discriminate H. injection H as <-. auto.
  - assert (IH' : snd (listen rest fin) = Failed e ->
                  e = ConnectionClosed \/ e = AttributeError
                  \/ (Text data = Garbled e \/ In (Garbled e) rest))
      by (intros H; destruct (IH H) as [H1 | [H1 | H1]]; auto).
    destruct data as [| b | n | s | xs | items]; cbn;
      try (intros H; injection H as <-; auto).
    destruct (dict_lookup "type" items) as [type |]; cbn; [| exact IH'].
    destruct (is_str type "data"); [| exact IH'].
    destruct (dict_lookup "payload" items) as [payload |]; cbn.
    + destruct payload as [| b | n | s | xs | pitems]; cbn;
        try (intros H; injection H as <-; auto).
      destruct (dict_lookup "data" pitems); destruct (listen rest fin); exact IH'.
    + destruct (listen rest fin). exact IH'.
  - intros H. injection H as <-. auto.
Qed.

(** X18: the listening loop never raises [GraphQLError]: an [error]
    message of the server is skipped like every message that is not a
    [data] message, and its payload is not raised to the caller
    ([json.loads] raising no [GraphQLError]). *)
Theorem listen_never_raises_graphql_error frames fin :
  (forall errors, ~ In (Garbled (GraphQLError errors)) frames) ->
  (forall errors, snd (listen frames fin) <> Failed (GraphQLError errors)) /\
  (forall errors rest,
      listen (error_message errors :: rest) fin = listen rest fin).
Proof.
  intros Hloads. split.
  - intros errors Hfail.
    destruct (listen_failure_sources _ _ _ Hfail) as [H | [H | H]];
      [discriminate H | discriminate H | exact (Hloads errors H)].
  - intros errors rest. reflexivity.
Qed.

Lemma listen_never_raises_graphql_error_witness :
  (forall errors,
      snd (listen [error_message (JList [boom]); data_message (JInt 1)] ClosedOK)
      <> Failed (GraphQLError errors)) /\
  (forall errors rest,
      listen (error_message errors :: rest) ClosedOK = listen rest ClosedOK).
Proof.
  apply (listen_never_raises_graphql_error
           [error_message (JList [boom]); data_message (JInt 1)] ClosedOK).
  intros errors [H | [H | []]]; discriminate H.
Defined.


(** X20: a [data] message without [payload], or whose payload has no
    [data], yields an empty mapping; one whose payload is [null] ends the
    stream with [AttributeError]. *)
Theorem listen_data_without_value items rest fin :
  dict_lookup "type" items = Some (JStr "data") ->
  ((dict_lookup "payload" items = None \/
    exists payload, dict_lookup "payload" items = Some (JDict payload) /\
                    dict_lookup "data" payload = None) ->
   listen (Text (JDict items) :: rest) fin =
   (JDict [] :: fst (listen rest fin), snd (listen rest fin))) /\
  (dict_lookup "payload" items = Some JNull ->
   listen (Text (JDict items) :: rest) fin = ([], Failed AttributeError)).
Proof.
  intros Htype. split.
  - intros [Hnone | (payload & Hpayload & Hnone)]; cbn; rewrite Htype; cbn.
    + rewrite Hnone. cbn. destruct (listen rest fin). reflexivity.
    + rewrite Hpayload. cbn. rewrite Hnone. destruct (listen rest fin). reflexivity.
  - intros Hnull. cbn. rewrite Htype. cbn. rewrite Hnull. reflexivity.
Qed.

Lemma listen_data_without_value_witness :
  listen (Text (JDict [("type", JStr "data"); ("id", JStr "1")]) :: [data_message (JInt 2)])
         ClosedOK
    = (JDict [] :: fst (listen [data_message (JInt 2)] ClosedOK),
       snd (listen [data_message (JInt 2)] ClosedOK)) /\
  listen (Text (JDict [("type", JStr "data"); ("payload", JNull)]) :: [data_message (JInt 2)])
         ClosedOK
    = ([], Failed AttributeError).
Proof.
  split.
  - apply (proj1 (listen_data_without_value
                    [("type", JStr "data"); ("id", JStr "1")] [data_message (JInt 2)]
                    ClosedOK eq_refl)).
    left. reflexivity.
  - apply (proj2 (listen_data_without_value
                    [("type", JStr "data"); ("payload", JNull)] [data_message (JInt 2)]
                    ClosedOK eq_refl)).
    reflexivity.
Defined.



(** ** The memo table of the cached client *)

Lemma lru_key_eqb_eq a b : lru_key_eqb a b = true <-> a = b.
Proof.
  destruct a as [[i q] v], b as [[i' q'] v']. unfold lru_key_eqb. split.
  - intros H. apply andb_true_iff in H. destruct H as [H Hv].
    apply andb_true_iff in H. destruct H as [Hi Hq].
    apply Nat.eqb_eq in Hi. apply String.eqb_eq in Hq. apply String.eqb_eq in Hv.
    subst. reflexivity.
  - intros H. injection H as -> -> ->.
    rewrite Nat.eqb_refl, !String.eqb_refl. reflexivity.
Qed.

Lemma lru_find_none k table :
  lru_find k table = None <-> ~ In k (map fst table).
Proof.
  induction table as [| [k' r] rest IH]; cbn; [tauto |].
  destruct (lru_key_eqb k' k) eqn:E.
  - apply lru_key_eqb_eq in E. split; [discriminate | tauto].
  - assert (k' <> k) by (intros ->; rewrite lru_key_eqb_refl in E; discriminate).
    rewrite IH. tauto.
Qed.

Lemma lru_find_other k k' r table :
  k' <> k -> lru_find k' ((k, r) :: table) = lru_find k' table.
Proof.
  intros Hne. cbn. destruct (lru_key_eqb k k') eqn:E; [| reflexivity].
  apply lru_key_eqb_eq in E. congruence.
Qed.

Lemma lru_remove_keys k table x :
  In x (map fst (lru_remove k table)) -> In x (map fst table).
Proof.
  induction table as [| [k' r] rest IH]; cbn; [tauto |].
  destruct (lru_key_eqb k' k); cbn; tauto.
Qed.

Lemma lru_remove_distinct k table :
  NoDup (map fst table) -> NoDup (k :: map fst (lru_remove k table)).
Proof.
  induction table as [| [k' r] rest IH]; cbn; intros Hnodup.
  - constructor; [tauto | constructor].
  - inversion Hnodup as [| ? ? Hnotin Hrest]; subst.
    destruct (lru_key_eqb k' k) eqn:E.
    + apply lru_key_eqb_eq in E. subst k'. constructor; assumption.
    + assert (Hne : k' <> k) by (intros ->; rewrite lru_key_eqb_refl in E; discriminate).
      specialize (IH Hrest). inversion IH as [| ? ? Hk Hrem]; subst.
      cbn. constructor.
      * intros [Heq | Hin]; [congruence | tauto].
      * constructor; [| exact Hrem].
        intros Hin. apply Hnotin. exact (lru_remove_keys _ _ _ Hin).
Qed.

Lemma removelast_keys_distinct (table : list (lru_key * string)) :
  NoDup (map fst table) ->
  NoDup (map fst (removelast table)) /\
  (forall x, In x (map fst (removelast table)) -> In x (map fst table)).
Proof.
  intros Hnodup. destruct table as [| entry rest].
  - cbn. split; [constructor | tauto].
  - destruct (@exists_last _ (entry :: rest) ltac:(discriminate))
      as (older & last_entry & Heq).
    rewrite Heq in *. rewrite removelast_last. rewrite map_app in Hnodup. split.
    + exact (NoDup_app_remove_r _ _ Hnodup).
    + intros x Hx. rewrite map_app. apply in_or_app. left. exact Hx.
Qed.

Lemma execute_cached_body_run server enc loads self query variables_json w :
  _execute_cached_body server enc loads self query variables_json w =
  match variables_of_text loads variables_json with
  | Returns variables =>
      (match server (posted w) (request_for (cached_client self) query variables) with
       | Returns result => Returns (dumps enc false result)
       | Raises e => Raises e
       end,
       after_post (request_for (cached_client self) query variables) w)
  | Raises e => (Raises e, w)
  end.
Proof.
  unfold _execute_cached_body, variables_of_text, bind, lift, ret.
  destruct (if variables_json =? "" then Returns JNull else loads variables_json)
    as [variables | e]; [| reflexivity].
  rewrite execute_run. destruct (server _ _); reflexivity.
Qed.

Lemma execute_cached_body_keeps_table server enc loads self query variables_json w o w0 :
  _execute_cached_body server enc loads self query variables_json w = (o, w0) ->
  lru w0 = lru w.
Proof.
  rewrite execute_cached_body_run.
  destruct (variables_of_text loads variables_json); intros H; injection H as _ <-; reflexivity.
Qed.

Lemma lru_cached_distinct k body w o w' :
  (forall o0 w0, body w = (o0, w0) -> lru w0 = lru w) ->
  NoDup (map fst (lru w)) ->
  lru_cached k body w = (o, w') ->
  NoDup (map fst (lru w')).
Proof.
  intros Hbody Hnodup. unfold lru_cached.
  destruct (lru_find k (lru w)) as [r |] eqn:Hfind.
  - intros H. injection H as _ <-. cbn. exact (lru_remove_distinct k _ Hnodup).
  - destruct (body w) as [[r | e] w0] eqn:Hb; intros H; injection H as _ <-.
    + cbn [lru]. rewrite (Hbody _ _ eq_refl). unfold lru_store. cbn [map fst].
      apply lru_find_none in Hfind.
      destruct (removelast_keys_distinct _ Hnodup) as [Hshort Hsub].
      destruct (lru_maxsize <=? List.length (lru w))%nat; constructor; auto.
    + rewrite (Hbody _ _ eq_refl). exact Hnodup.
Qed.

(** X22: every call of the cached [execute], cached or not, returning or
    raising, keeps the memo table within 128 entries and with each key at
    most once. *)
Theorem cached_execute_keeps_table_invariants
    server enc loads self query variables use_cache w o w' :
  (List.length (lru w) <= lru_maxsize)%nat ->
  NoDup (map fst (lru w)) ->
  cached_execute server enc loads self query variables use_cache w = (o, w') ->
  (List.length (lru w') <= lru_maxsize)%nat /\ NoDup (map fst (lru w')).
Proof.
  intros Hlen Hnodup Hrun. split.
  - exact (cached_execute_table_bounded _ _ _ _ _ _ _ _ _ _ Hlen Hrun).
  - revert Hrun. unfold cached_execute. destruct use_cache; cbn [negb].
    + unfold bind, _execute_cached.
      destruct (lru_cached _ _ w) as [[r | e] w0] eqn:Hc;
        unfold lift; intros H; injection H as _ <-;
        (eapply lru_cached_distinct; [| exact Hnodup | exact Hc]);
        intros o0 w1 Hb; exact (execute_cached_body_keeps_table _ _ _ _ _ _ _ _ _ Hb).
    + rewrite execute_run. intros H. injection H as _ <-. exact Hnodup.
Qed.

Lemma cached_execute_keeps_table_invariants_witness :
  (List.length
     (lru (snd (cached_execute (endpoint_answering books_answer) quote_encoder demo_loads
                  small_cache_client "{ books { title } }" JNull true
                  (mkWorld [] [] full_table)))) <= lru_maxsize)%nat /\
  NoDup (map fst
     (lru (snd (cached_execute (endpoint_answering books_answer) quote_encoder demo_loads
                  small_cache_client "{ books { title } }" JNull true
                  (mkWorld [] [] full_table))))).
Proof.
  apply (cached_execute_keeps_table_invariants
           (endpoint_answering books_answer) quote_encoder demo_loads
           small_cache_client "{ books { title } }" JNull true
           (mkWorld [] [] full_table)
           (fst (cached_execute (endpoint_answering books_answer) quote_encoder demo_loads
                   small_cache_client "{ books { title } }" JNull true
                   (mkWorld [] [] full_table)))).
  - vm_compute. reflexivity.
  - unfold full_table. cbn [lru]. rewrite map_map. cbn [fst].
    apply Finite.Injective_map_NoDup; [| apply seq_NoDup].
    intros i j H. injection H as ->. reflexivity.
  - destruct (cached_execute _ _ _ _ _ _ _ _); reflexivity.
Defined.

(** X23: when the table is full and the key of a call is not in it, a
    call of [_execute_cached] that returns stores its result in front and
    drops exactly the last entry, the least recently used one: that key is
    no longer found, every other entry is found as before, and the table
    still holds 128 entries. *)
Theorem execute_cached_evicts_least_recent
    server enc loads self query variables_json w older oldest r w1 :
  lru w = (older ++ [oldest])%list ->
  List.length (lru w) = lru_maxsize ->
  NoDup (map fst (lru w)) ->
  lru_find (ident self, query, variables_json) (lru w) = None ->
  _execute_cached server enc loads self query variables_json w = (Returns r, w1) ->
  lru w1 = ((ident self, query, variables_json), r) :: older /\
  lru_find (fst oldest) (lru w1) = None /\
  (forall k, In k (map fst older) -> lru_find k (lru w1) = lru_find k (lru w)) /\
  List.length (lru w1) = lru_maxsize.
Proof.
  intros Hshape Hfull Hnodup Hmiss Hrun.
  set (key := (ident self, query, variables_json)) in *.
  assert (Htable : lru w1 = (key, r) :: older).
  { revert Hrun. unfold _execute_cached, lru_cached. fold key. rewrite Hmiss.
    destruct (_execute_cached_body _ _ _ _ _ _ w) as [[r0 | e] w0] eqn:Hb; [| discriminate].
    intros H. injection H as <- <-. cbn [lru].
    rewrite (execute_cached_body_keeps_table _ _ _ _ _ _ _ _ _ Hb).
    rewrite (lru_store_evicts_last key r0 (lru w) Hfull), Hshape, removelast_last.
    reflexivity. }
  rewrite Hshape, map_app in Hnodup. cbn [map] in Hnodup.
  apply lru_find_none in Hmiss. rewrite Hshape, map_app in Hmiss. cbn [map] in Hmiss.
  assert (Hold : ~ In (fst oldest) (map fst older)).
  { intros Hin. apply NoDup_remove_2 in Hnodup. apply Hnodup.
    rewrite app_nil_r. exact Hin. }
  assert (Hkey : key <> fst oldest).
  { intros Heq. apply Hmiss. apply in_or_app. right. left. symmetry. exact Heq. }
  rewrite Htable. repeat split.
  - rewrite lru_find_other by (intros Heq; apply Hkey; symmetry; exact Heq).
    apply lru_find_none. exact Hold.
  - intros k Hk.
    assert (Hne : k <> key).
    { intros ->. apply Hmiss. apply in_or_app. left. exact Hk. }
    rewrite lru_find_other by exact Hne. rewrite Hshape.
    clear - Hk. induction older as [| [k' r'] more IH]; cbn in *; [tauto |].
    destruct (lru_key_eqb k' k) eqn:E; [reflexivity |].
    destruct Hk as [Heq | Hin]; [subst; rewrite lru_key_eqb_refl in E; discriminate |].
    exact (IH Hin).
  - rewrite <- Hfull, Hshape, length_app. cbn. lia.
Qed.

Lemma execute_cached_evicts_least_recent_witness :
  lru_find (128%nat, "{ books { id } }", "{}") full_table = Some "{}" /\
  lru_find (128%nat, "{ books { id } }", "{}")
    (lru (snd (_execute_cached (endpoint_answering books_answer) quote_encoder demo_loads
                 small_cache_client "{ books { title } }" "{}"
                 (mkWorld [] [] full_table)))) = None.
Proof.
  split; [vm_compute; reflexivity |].
  apply (execute_cached_evicts_least_recent
           (endpoint_answering books_answer) quote_encoder demo_loads
           small_cache_client "{ books { title } }" "{}"
           (mkWorld [] [] full_table)
           (map (fun i => ((i, "{ books { id } }", "{}"), "{}")) (seq 1 127))
           ((128%nat, "{ books { id } }", "{}"), "{}")
           (dumps quote_encoder false books_answer)
           (snd (_execute_cached (endpoint_answering books_answer) quote_encoder demo_loads
                   small_cache_client "{ books { title } }" "{}"
                   (mkWorld [] [] full_table)))).
  - vm_compute. reflexivity.
  - vm_compute. reflexivity.
  - unfold full_table. cbn [lru]. rewrite map_map. cbn [fst].
    apply Finite.Injective_map_NoDup; [| apply seq_NoDup].
    intros i j H. injection H as ->. reflexivity.
  - vm_compute. reflexivity.
  - vm_compute. reflexivity.
Defined.

(** X24: a cached call whose request fails at the transport stores
    nothing: the exception reaches the caller, the table is unchanged, and
    the same call made again posts the request again. *)
Theorem cached_failure_is_not_stored
    server enc loads self query variables w sent_variables e :
  lru_find (ident self, query, dumps enc true (or_empty_dict variables)) (lru w) = None ->
  variables_of_text loads (dumps enc true (or_empty_dict variables)) = Returns sent_variables ->
  server (posted w) (request_for (cached_client self) query sent_variables) = Raises e ->
  exists w1,
    cached_execute server enc loads self query variables true w = (Raises e, w1) /\
    lru w1 = lru w /\
    posted w1 = request_for (cached_client self) query sent_variables :: posted w /\
    posted (snd (cached_execute server enc loads self query variables true w1)) =
      request_for (cached_client self) query sent_variables
        :: request_for (cached_client self) query sent_variables :: posted w.
Proof.
  intros Hmiss Hvars Hfail.
  set (r := request_for (cached_client self) query sent_variables) in *.
  exists (after_post r w).
  assert (Hcall : forall w0,
             lru_find (ident self, query, dumps enc true (or_empty_dict variables)) (lru w0)
               = None ->
             cached_execute server enc loads self query variables true w0 =
             (match server (posted w0) r with
              | Returns result =>
                  match loads (dumps enc false result) with
                  | Returns v => Returns v
                  | Raises e0 => Raises e0
                  end
              | Raises e0 => Raises e0
              end,
              match server (posted w0) r with
              | Returns result =>
                  mkWorld (r :: posted w0) (stdout w0)
                    (lru_store (ident self, query, dumps enc true (or_empty_dict variables))
                               (dumps enc false result) (lru w0))
              | Raises _ => after_post r w0
              end)).
  { intros w0 Hmiss0. unfold cached_execute, bind, _execute_cached, lru_cached, lift.
    cbn [negb]. rewrite Hmiss0, execute_cached_body_run, Hvars. fold r.
    destruct (server (posted w0) r) as [result | e0]; [| reflexivity].
    cbn. destruct (loads (dumps enc false result)); reflexivity. }
  rewrite (Hcall w Hmiss), Hfail.
  repeat split.
  rewrite (Hcall (after_post r w) Hmiss). cbn [posted after_post].
  destruct (server (r :: posted w) r); reflexivity.
Qed.

Lemma cached_failure_is_not_stored_witness :
  exists w1,
    cached_execute endpoint_down quote_encoder demo_loads small_cache_client
                   "{ books { id } }" JNull true fresh_world
      = (Raises (RequestException "connection refused #0"), w1) /\
    lru w1 = lru fresh_world /\
    posted w1 =
      request_for (cached_client small_cache_client) "{ books { id } }" (JDict [])
        :: posted fresh_world /\
    posted (snd (cached_execute endpoint_down quote_encoder demo_loads small_cache_client
                   "{ books { id } }" JNull true w1)) =
      request_for (cached_client small_cache_client) "{ books { id } }" (JDict [])
        :: request_for (cached_client small_cache_client) "{ books { id } }" (JDict [])
        :: posted fresh_world.
Proof.
  apply (cached_failure_is_not_stored endpoint_down quote_encoder demo_loads
           small_cache_client "{ books { id } }" JNull fresh_world (JDict [])
           (RequestException "connection refused #0"));
    vm_compute; reflexivity.
Defined.

(** X25: a call with [use_cache=False] posts its request even when the
    result is in the table, and does not refresh the table: the next
    cached call still returns the value stored before, whatever the
    endpoint answered in between. *)
Theorem uncached_call_does_not_refresh
    server enc loads self query variables w V w1 :
  cached_execute server enc loads self query variables true w = (Returns V, w1) ->
  exists w3,
    posted (snd (cached_execute server enc loads self query variables false w1)) =
      request_for (cached_client self) query variables :: posted w1 /\
    fst (cached_execute server enc loads self query variables false w1) =
      server (posted w1) (request_for (cached_client self) query variables) /\
    cached_execute server enc loads self query variables true
      (snd (cached_execute server enc loads self query variables false w1))
      = (Returns V, w3) /\
    posted w3 = request_for (cached_client self) query variables :: posted w1.
Proof.
  intros Hfirst.
  assert (Hbypass : cached_execute server enc loads self query variables false w1 =
                    (server (posted w1) (request_for (cached_client self) query variables),
                     after_post (request_for (cached_client self) query variables) w1)).
  { unfold cached_execute. cbn [negb]. apply execute_run. }
  rewrite Hbypass. cbn [fst snd].
  revert Hfirst. unfold cached_execute. cbn [negb].
  unfold bind, _execute_cached.
  set (k := (ident self, query, dumps enc true (or_empty_dict variables))).
  set (body := _execute_cached_body server enc loads self query
                 (dumps enc true (or_empty_dict variables))).
  destruct (lru_cached k body w) as [[r | e] w0] eqn:Hc; [| discriminate].
  unfold lift. intros H. injection H as Hloads <-.
  pose proof (lru_cached_stores _ _ _ _ _ Hc) as Hfind.
  rewrite (lru_cached_hit k body (after_post _ w0) r Hfind).
  eexists. split; [reflexivity |]. split; [reflexivity |].
  split; [rewrite Hloads; reflexivity | reflexivity].
Qed.

Lemma uncached_call_does_not_refresh_witness :
  exists w3,
    posted (snd (cached_execute counting_endpoint quote_encoder number_loads
                   small_cache_client "{ books { id } }" JNull false
                   (snd (cached_execute counting_endpoint quote_encoder number_loads
                           small_cache_client "{ books { id } }" JNull true fresh_world)))) =
      request_for (cached_client small_cache_client) "{ books { id } }" JNull
        :: posted (snd (cached_execute counting_endpoint quote_encoder number_loads
                          small_cache_client "{ books { id } }" JNull true fresh_world)) /\
    fst (cached_execute counting_endpoint quote_encoder number_loads
           small_cache_client "{ books { id } }" JNull false
           (snd (cached_execute counting_endpoint quote_encoder number_loads
                   small_cache_client "{ books { id } }" JNull true fresh_world))) =
      counting_endpoint
        (posted (snd (cached_execute counting_endpoint quote_encoder number_loads
                        small_cache_client "{ books { id } }" JNull true fresh_world)))
        (request_for (cached_client small_cache_client) "{ books { id } }" JNull) /\
    cached_execute counting_endpoint quote_encoder number_loads
      small_cache_client "{ books { id } }" JNull true
      (snd (cached_execute counting_endpoint quote_encoder number_loads
              small_cache_client "{ books { id } }" JNull false
              (snd (cached_execute counting_endpoint quote_encoder number_loads
                      small_cache_client "{ books { id } }" JNull true fresh_world))))
      = (Returns (JInt 0), w3) /\
    posted w3 =
      request_for (cached_client small_cache_client) "{ books { id } }" JNull
        :: posted (snd (cached_execute counting_endpoint quote_encoder number_loads
                          small_cache_client "{ books { id } }" JNull true fresh_world)).
Proof.
  apply (uncached_call_does_not_refresh counting_endpoint quote_encoder number_loads
           small_cache_client "{ books { id } }" JNull fresh_world (JInt 0)).
  vm_compute. reflexivity.
Defined.

(** X26: all falsy variables ([None], an empty mapping) stand for the
    same request in the cache: they give the same cache key, and after a
    cached call with the one has returned, a cached call with the other
    is answered from the table. *)
Theorem falsy_variables_share_entry
    server enc md5 loads self query variables variables' :
  truthy variables = false ->
  truthy variables' = false ->
  _cache_key enc md5 self query variables = _cache_key enc md5 self query variables' /\
  (forall w V w1,
      cached_execute server enc loads self query variables true w = (Returns V, w1) ->
      exists w2,
        cached_execute server enc loads self query variables' true w1 = (Returns V, w2) /\
        posted w2 = posted w1).
Proof.
  intros Hf Hf'.
  assert (Htext : dumps enc true (or_empty_dict variables)
                  = dumps enc true (or_empty_dict variables')).
  { unfold or_empty_dict. rewrite Hf, Hf'. reflexivity. }
  split.
  - unfold _cache_key. rewrite Htext. reflexivity.
  - intros w V w1 Hfirst.
    exact (cached_execute_hit_after server enc loads self query _ _ w V w1 Htext Hfirst).
Qed.

Lemma falsy_variables_share_entry_witness :
  exists w2,
    cached_execute (endpoint_answering books_answer) quote_encoder demo_loads
                   small_cache_client "{ books { id } }" (JDict []) true
                   (snd (cached_execute (endpoint_answering books_answer) quote_encoder
                           demo_loads small_cache_client "{ books { id } }" JNull true
                           fresh_world))
      = (Returns books_answer, w2) /\
    posted w2 =
      posted (snd (cached_execute (endpoint_answering books_answer) quote_encoder
                     demo_loads small_cache_client "{ books { id } }" JNull true
                     fresh_world)).
Proof.
  apply (proj2 (falsy_variables_share_entry
                  (endpoint_answering books_answer) quote_encoder plain_digest demo_loads
                  small_cache_client "{ books { id } }" JNull (JDict [])
                  eq_refl eq_refl) fresh_world books_answer).
  vm_compute. reflexivity.
Defined.

(** X27: the entries of the table belong to the instance that made the
    call: after a cached call of one client has returned, the same call
    made through another instance is not answered from that entry, it
    posts its own request. *)
Theorem instances_do_not_share_entries
    server enc loads self other query variables w V w1 :
  ident self <> ident other ->
  lru w = [] ->
  cached_execute server enc loads self query variables true w = (Returns V, w1) ->
  exists sent_variables,
    variables_of_text loads (dumps enc true (or_empty_dict variables))
      = Returns sent_variables /\
    posted (snd (cached_execute server enc loads other query variables true w1)) =
      request_for (cached_client other) query sent_variables :: posted w1.
Proof.
  intros Hident Hempty.
  unfold cached_execute. cbn [negb]. unfold bind, _execute_cached, lru_cached.
  rewrite Hempty. cbn [lru_find].
  rewrite !execute_cached_body_run.
  destruct (variables_of_text loads (dumps enc true (or_empty_dict variables)))
    as [sent_variables | e]; [| discriminate].
  destruct (server (posted w) _) as [result | e]; [| discriminate].
  unfold lift. intros H. injection H as _ <-.
  exists sent_variables. split; [reflexivity |].
  cbn [lru posted after_post]. rewrite Hempty.
  unfold lru_store. cbn [List.length].
  replace (lru_maxsize <=? 0)%nat with false by reflexivity.
  cbn [lru_find].
  assert (Hkey : lru_key_eqb (ident self, query, dumps enc true (or_empty_dict variables))
                             (ident other, query, dumps enc true (or_empty_dict variables))
                 = false).
  { destruct (lru_key_eqb _ _) eqn:E; [| reflexivity].
    apply lru_key_eqb_eq in E. injection E as E. contradiction. }
  rewrite Hkey.
  destruct (server _ (request_for (cached_client other) query sent_variables)); reflexivity.
Qed.

Lemma instances_do_not_share_entries_witness :
  exists sent_variables,
    variables_of_text demo_loads (dumps quote_encoder true (or_empty_dict JNull))
      = Returns sent_variables /\
    posted (snd (cached_execute (endpoint_answering books_answer) quote_encoder demo_loads
                   other_cache_client "{ books { id } }" JNull true
                   (snd (cached_execute (endpoint_answering books_answer) quote_encoder
                           demo_loads small_cache_client "{ books { id } }" JNull true
                           fresh_world)))) =
      request_for (cached_client other_cache_client) "{ books { id } }" sent_variables
        :: posted (snd (cached_execute (endpoint_answering books_answer) quote_encoder
                          demo_loads small_cache_client "{ books { id } }" JNull true
                          fresh_world)).
Proof.
  apply (instances_do_not_share_entries
           (endpoint_answering books_answer) quote_encoder demo_loads
           small_cache_client other_cache_client "{ books { id } }" JNull
           fresh_world books_answer).
  - discriminate.
  - reflexivity.
  - vm_compute. reflexivity.
Defined.

Lemma lru_cached_front k body w r w1 :
  lru_cached k body w = (Returns r, w1) ->
  exists rest, lru w1 = (k, r) :: rest.
Proof.
  unfold lru_cached.
  destruct (lru_find k (lru w)) as [r0 |].
  - intros H. injection H as <- <-. cbn. eauto.
  - destruct (body w) as [[r0 | e] w0]; [| discriminate].
    intros H. injection H as <- <-. cbn. unfold lru_store. eauto.
Qed.

(** X28: the entry of the call that returned last survives the next call
    of [_execute_cached], whatever that call is (a hit, a miss that
    evicts, or a call that raises): the most recently used entry is never
    the one dropped. *)
Theorem latest_entry_survives_next_call
    server enc loads self query variables_json w r w1
    self' query' variables_json' o w2 :
  _execute_cached server enc loads self query variables_json w = (Returns r, w1) ->
  _execute_cached server enc loads self' query' variables_json' w1 = (o, w2) ->
  lru_find (ident self, query, variables_json) (lru w2) = Some r.
Proof.
  unfold _execute_cached. intros Hfirst.
  set (k := (ident self, query, variables_json)).
  set (k' := (ident self', query', variables_json')).
  destruct (lru_cached_front _ _ _ _ _ Hfirst) as [rest Htable].
  fold k in Htable.
  assert (Hfound : lru_find k (lru w1) = Some r).
  { rewrite Htable. cbn [lru_find removelast]. rewrite lru_key_eqb_refl. reflexivity. }
  unfold lru_cached.
  destruct (lru_find k' (lru w1)) as [r' |] eqn:Hfind'.
  - intros H. injection H as _ <-. cbn [lru lru_find].
    destruct (lru_key_eqb k' k) eqn:E.
    + apply lru_key_eqb_eq in E. rewrite E, Hfound in Hfind'.
      injection Hfind' as ->. reflexivity.
    + rewrite Htable. cbn [lru_remove].
      assert (Hne : lru_key_eqb k k' = false).
      { destruct (lru_key_eqb k k') eqn:E'; [| reflexivity].
        apply lru_key_eqb_eq in E'. subst k'. rewrite E' in E.
        rewrite lru_key_eqb_refl in E. discriminate. }
      rewrite Hne. cbn [lru_find removelast]. rewrite lru_key_eqb_refl. reflexivity.
  - assert (E : lru_key_eqb k' k = false).
    { destruct (lru_key_eqb k' k) eqn:E; [| reflexivity].
      apply lru_key_eqb_eq in E. rewrite E in Hfind'. rewrite Hfound in Hfind'.
      discriminate. }
    destruct (_execute_cached_body server enc loads self' query' variables_json' w1)
      as [[r' | e] w0] eqn:Hb; intros H; injection H as _ <-.
    + cbn [lru]. rewrite (execute_cached_body_keeps_table _ _ _ _ _ _ _ _ _ Hb).
      unfold lru_store. cbn [lru_find]. rewrite E. rewrite Htable.
      match goal with
      | |- context [if ?full then _ else _] => destruct full eqn:Hfull
      end.
      * destruct rest as [| entry rest'].
        { cbn in Hfull. discriminate. }
        change (removelast ((k, r) :: entry :: rest'))
          with ((k, r) :: removelast (entry :: rest')).
        cbn [lru_find]. rewrite lru_key_eqb_refl. reflexivity.
      * cbn [lru_find]. rewrite lru_key_eqb_refl. reflexivity.
    + rewrite (execute_cached_body_keeps_table _ _ _ _ _ _ _ _ _ Hb). exact Hfound.
Qed.

Lemma latest_entry_survives_next_call_witness :
  lru_find (ident small_cache_client, "{ books { title } }", "{}")
    (lru (snd (_execute_cached (endpoint_answering books_answer) quote_encoder demo_loads
                 other_cache_client "{ books { id } }" "{}"
                 (snd (_execute_cached (endpoint_answering books_answer) quote_encoder
                         demo_loads small_cache_client "{ books { title } }" "{}"
                         (mkWorld [] [] full_table))))))
  = Some (dumps quote_encoder false books_answer).
Proof.
  apply (latest_entry_survives_next_call
           (endpoint_answering books_answer) quote_encoder demo_loads
           small_cache_client "{ books { title } }" "{}" (mkWorld [] [] full_table)
           (dumps quote_encoder false books_answer)
           (snd (_execute_cached (endpoint_answering books_answer) quote_encoder
                   demo_loads small_cache_client "{ books { title } }" "{}"
                   (mkWorld [] [] full_table)))
           other_cache_client "{ books { id } }" "{}"
           (fst (_execute_cached (endpoint_answering books_answer) quote_encoder demo_loads
                   other_cache_client "{ books { id } }" "{}"
                   (snd (_execute_cached (endpoint_answering books_answer) quote_encoder
                           demo_loads small_cache_client "{ books { title } }" "{}"
                           (mkWorld [] [] full_table)))))).
  - vm_compute. reflexivity.
  - vm_compute. reflexivity.
Defined.
